(** * WhatsAppOSINT: the lookup handler, its cache and the shutdown path

    A shallow embedding of [src/index.js]: the [GET /check/:phone] route
    with its schema, the [node-cache] instance it reads and writes, the
    client event handlers, [gracefulShutdown] and [main].

    The three collaborators of the script are libraries, not code of the
    repository.  They are modelled as far as the script uses them:
    - [node-cache]: [get], [set], [flushAll] and the periodic expiry check,
      with the expiry timestamp the library stores per key;
    - [whatsapp-web.js]: a client object whose methods return promises; a
      promise settles after some time with a value or with an error;
    - [fastify]: schema validation runs before the handler and answers by
      itself when the parameter does not match. *)

From Stdlib Require Import ZArith Lia List Bool String Ascii.
From stdpp Require Import base strings pretty gmap list.

Set Warnings "-register-all".
Local Open Scope Z_scope.

(** ** JavaScript values *)

(** The values the script moves around: cache contents, reply bodies,
    contact fields.  Objects keep their properties in insertion order. *)
Inductive JsValue : Type :=
| JUndefined
| JNull
| JBool (b : bool)
| JNum (n : Z)
| JStr (s : string)
| JObj (fields : list (string * JsValue)).

(** [if (v)]: the truthiness test of the language. *)
Definition truthy (v : JsValue) : bool :=
  match v with
  | JUndefined | JNull => false
  | JBool b => b
  | JNum n => negb (n =? 0)
  | JStr s => negb (String.eqb s "")
  | JObj _ => true
  end.

(** [a || b] *)
Definition js_or (a b : JsValue) : JsValue := if truthy a then a else b.

(** [o.k] on an object literal; [undefined] when the property is missing. *)
Fixpoint lookup_field (k : string) (fields : list (string * JsValue)) : JsValue :=
  match fields with
  | [] => JUndefined
  | (k', v) :: rest => if String.eqb k k' then v else lookup_field k rest
  end.

Definition prop (k : string) (v : JsValue) : JsValue :=
  match v with
  | JObj fields => lookup_field k fields
  | _ => JUndefined
  end.

Definition keys (v : JsValue) : list string :=
  match v with
  | JObj fields => map fst fields
  | _ => []
  end.

(** ** Configuration *)

Module config.
(** [parseInt(process.env.CACHE_TTL_SECONDS, 10) || 600]: the argument is
    what [parseInt] returned, [None] standing for [NaN]. *)
Definition cache_ttl (parsed : option Z) : Z :=
  match parsed with
  | Some n => if n =? 0 then 600 else n
  | None => 600
  end.

Definition cache_checkperiod : Z := 120.
End config.

(** ** node-cache *)

Module NodeCache.

(** What the library keeps per key: [t] is the expiry timestamp in
    milliseconds ([0] means the key never expires), [v] the value. *)
Record Entry := { t : Z; v : JsValue }.

Section WithOptions.
(** [stdTTL], in seconds. *)
Variable stdTTL : Z.

(** [_wrap(value, ttl)] with [ttl = stdTTL], the only way the script
    calls [set]. *)
Definition wrap (now : Z) (value : JsValue) : Entry :=
  {| t := if stdTTL =? 0 then 0 else now + stdTTL * 1000; v := value |}.

(** [_unwrap]: [value.v != null ? clone(value.v) : null].  Values are
    immutable here, so a clone is the value. *)
Definition unwrap (e : Entry) : JsValue :=
  match v e with
  | JUndefined | JNull => JNull
  | x => x
  end.

(** [data.t !== 0 && data.t < Date.now()] *)
Definition expired (now : Z) (e : Entry) : bool :=
  negb (t e =? 0) && (t e <? now).

(** [get(key)]: an expired entry is deleted on the way
    ([deleteOnExpire] is on by default) and reads as [undefined]. *)
Definition get (now : Z) (key : string) (data : gmap string Entry)
  : JsValue * gmap string Entry :=
  match data !! key with
  | Some e => if expired now e then (JUndefined, delete key data)
              else (unwrap e, data)
  | None => (JUndefined, data)
  end.

(** [set(key, value)] *)
Definition set (now : Z) (key : string) (value : JsValue)
    (data : gmap string Entry) : gmap string Entry :=
  <[key := wrap now value]> data.

(** [flushAll()] *)
Definition flushAll (data : gmap string Entry) : gmap string Entry := ∅.

(** [_checkData], run every [checkperiod] seconds: drops what expired. *)
Definition checkData (now : Z) (data : gmap string Entry) : gmap string Entry :=
  filter (λ kv, expired now kv.2 = false) data.
End WithOptions.

End NodeCache.

(** ** Promises and the WhatsApp client *)

(** How an awaited call ends: with a value, or with the error the [await]
    throws. *)
Inductive Outcome (A : Type) : Type :=
| Resolved (a : A)
| Rejected (error : JsValue).
Arguments Resolved {A} a.
Arguments Rejected {A} error.

(** A promise as the caller sees it: it settles [latency] milliseconds
    after the call, with [outcome]. *)
Record Promise (A : Type) : Type := { latency : N; outcome : Outcome A }.
Arguments latency {A} _.
Arguments outcome {A} _.

(** The object [getContactById] yields, as far as the handler reads it. *)
Record Contact : Type := {
  pushname : JsValue;
  number : JsValue;
  isBusiness : JsValue;
  getProfilePicUrl : Promise JsValue
}.

(** The signals the script subscribes to in [initializeWhatsAppClient]. *)
Inductive ClientEvent : Type :=
| qr (code : string)
| loading_screen (percent : Z) (message : string)
| authenticated
| ready
| auth_failure (msg : string)
| disconnected (reason : string).

(** The [Client] instance.  [emitted] lists the signals it has sent so far
    (oldest first); [pupBrowser] is the browser handle, [undefined] until
    the library has launched the browser.  The two methods are what the
    library documents: [isRegisteredUser] resolves to a boolean,
    [getContactById] to a contact; either may reject. *)
Record Client : Type := {
  emitted : list ClientEvent;
  pupBrowser : JsValue;
  isRegisteredUser : string -> Promise bool;
  getContactById : string -> Promise Contact
}.

(** ** Replies *)

Record Reply : Type := {
  statusCode : Z;
  headers : list (string * string);
  payload : JsValue
}.

Module reply.
(** A reply nobody has touched yet: status 200, no header of the script. *)
Definition fresh : Reply := {| statusCode := 200; headers := []; payload := JUndefined |}.

Definition header (name value : string) (r : Reply) : Reply :=
  {| statusCode := statusCode r;
     headers := headers r ++ [(name, value)];
     payload := payload r |}.

Definition code (n : Z) (r : Reply) : Reply :=
  {| statusCode := n; headers := headers r; payload := payload r |}.

Definition send (body : JsValue) (r : Reply) : Reply :=
  {| statusCode := statusCode r; headers := headers r; payload := body |}.
End reply.

(** ** Handler programs *)

(** A handler is a tree of the operations it performs on its
    surroundings.  The three client calls are the points where an [async]
    function is suspended; everything between two of them runs without
    interruption. *)
Inductive Prog (A : Type) : Type :=
| Ret (a : A)
| OpCacheGet (key : string) (k : JsValue -> Prog A)
| OpCacheSet (key : string) (value : JsValue) (k : Prog A)
| OpLogError (error : JsValue) (msg : string) (k : Prog A)
| OpIsRegisteredUser (id : string) (k : Outcome bool -> Prog A)
| OpGetContactById (id : string) (k : Outcome Contact -> Prog A)
| OpGetProfilePicUrl (contact : Contact) (k : Outcome JsValue -> Prog A).
Arguments Ret {A} a.
Arguments OpCacheGet {A} key k.
Arguments OpCacheSet {A} key value k.
Arguments OpLogError {A} error msg k.
Arguments OpIsRegisteredUser {A} id k.
Arguments OpGetContactById {A} id k.
Arguments OpGetProfilePicUrl {A} contact k.

Fixpoint bind {A B : Type} (p : Prog A) (f : A -> Prog B) : Prog B :=
  match p with
  | Ret a => f a
  | OpCacheGet key k => OpCacheGet key (fun x => bind (k x) f)
  | OpCacheSet key value k => OpCacheSet key value (bind k f)
  | OpLogError error msg k => OpLogError error msg (bind k f)
  | OpIsRegisteredUser id k => OpIsRegisteredUser id (fun x => bind (k x) f)
  | OpGetContactById id k => OpGetContactById id (fun x => bind (k x) f)
  | OpGetProfilePicUrl c k => OpGetProfilePicUrl c (fun x => bind (k x) f)
  end.

#[export] Instance Prog_ret : MRet Prog := @Ret.
#[export] Instance Prog_bind : MBind Prog := fun A B f p => bind p f.

Definition phoneNumberCache_get (key : string) : Prog JsValue := OpCacheGet key Ret.
Definition phoneNumberCache_set (key : string) (value : JsValue) : Prog unit :=
  OpCacheSet key value (Ret tt).
Definition server_log_error (error : JsValue) (msg : string) : Prog unit :=
  OpLogError error msg (Ret tt).
Definition client_isRegisteredUser (id : string) : Prog (Outcome bool) :=
  OpIsRegisteredUser id Ret.
Definition client_getContactById (id : string) : Prog (Outcome Contact) :=
  OpGetContactById id Ret.
Definition contact_getProfilePicUrl (c : Contact) : Prog (Outcome JsValue) :=
  OpGetProfilePicUrl c Ret.

(** Inside a [try] block a step either goes on with a value or leaves the
    block with the error thrown. *)
Definition and_then {A B : Type} (p : Prog (Outcome A)) (f : A -> Prog (Outcome B))
  : Prog (Outcome B) :=
  o ← p; match o with Resolved a => f a | Rejected e => mret (Rejected e) end.

Definition try_catch {A : Type} (body : Prog (Outcome A)) (handler : JsValue -> Prog A)
  : Prog A :=
  o ← body; match o with Resolved a => mret a | Rejected e => handler e end.

Notation "'await' x ← p ; q" := (and_then p (fun x => q))
  (at level 20, x name, p at level 100, q at level 200, right associativity, only parsing).

(** ** The route [GET /check/:phone] *)

Module fastify.
Definition is_digit (ch : ascii) : bool :=
  (48 <=? nat_of_ascii ch)%nat && (nat_of_ascii ch <=? 57)%nat.

(** The schema of the route: [{ type: 'string', pattern: '^[0-9]+$' }].
    A path parameter is a string already; the pattern asks for one or
    more characters, each of them a digit. *)
Definition matches_schema (phone : string) : bool :=
  match phone with
  | EmptyString => false
  | String _ _ => forallb is_digit (list_ascii_of_string phone)
  end.

Definition dquote : string := String (ascii_of_nat 34) EmptyString.

(** The script registers no error handler and no schema error formatter,
    so a request that fails the schema is answered by the framework's
    default error reply (Fastify 4 and 5 wording). *)
Definition validation_error : Reply :=
  {| statusCode := 400;
     headers := [];
     payload := JObj [("statusCode", JNum 400);
                      ("code", JStr "FST_ERR_VALIDATION");
                      ("error", JStr "Bad Request");
                      ("message", JStr ("params/phone must match pattern "
                                        +:+ dquote +:+ "^[0-9]+$" +:+ dquote))] |}.
End fastify.

(** [`whatsapp_user_${phone}`] *)
Definition cacheKey (phone : string) : string := "whatsapp_user_" +:+ phone.

(** [`${phone}@c.us`] *)
Definition phoneNumberId (phone : string) : string := phone +:+ "@c.us".

(** The body of the [try] block of the handler: the registration check,
    for a registered number the contact and its picture, then the [set] on
    the cache and the reply. *)
Definition lookup (phone : string) (rep : Reply) : Prog (Outcome Reply) :=
  await isRegistered ← client_isRegisteredUser (phoneNumberId phone);
  let result := [("registered", JBool isRegistered)] in
  await result ←
    (if isRegistered then
       await contact ← client_getContactById (phoneNumberId phone);
       await pfpUrl ← contact_getProfilePicUrl contact;
       mret (Resolved (result ++
         [("name", js_or (pushname contact) JNull);
          ("number", js_or (number contact) JNull);
          ("profile_picture_url", js_or pfpUrl JNull);
          ("is_business", js_or (isBusiness contact) (JBool false))]))
     else mret (Resolved result));
  phoneNumberCache_set (cacheKey phone) (JObj result);;
  mret (Resolved (reply.send
    (JObj [("success", JBool true); ("result", JObj result); ("source", JStr "live")])
    rep)).

(** The handler [setupRoutes] gives the route: the cache first, the
    client on a miss, the 500 reply when anything in the [try] block
    throws. *)
Definition handler (phone : string) : Prog Reply :=
  let rep := reply.fresh in
  cachedData ← phoneNumberCache_get (cacheKey phone);
  if truthy cachedData then
    let rep := reply.header "X-Cache-Status" "HIT" rep in
    mret (reply.send
      (JObj [("success", JBool true); ("result", cachedData); ("source", JStr "cache")])
      rep)
  else
    let rep := reply.header "X-Cache-Status" "MISS" rep in
    try_catch (lookup phone rep) (fun error =>
      server_log_error error ("Error processing request for phone: " +:+ phone);;
      mret (reply.send
        (JObj [("success", JBool false);
               ("error", JStr "An internal server error occurred.")])
        (reply.code 500 rep))).

(** What the server does with a request for [/check/<phone>]: the schema
    of the route decides whether the handler runs. *)
Definition getCheck (phone : string) : Prog Reply :=
  if fastify.matches_schema phone then handler phone
  else mret fastify.validation_error.

(** ** The world a handler runs in *)

Inductive UpstreamCall : Type :=
| CallIsRegisteredUser (id : string)
| CallGetContactById (id : string)
| CallGetProfilePicUrl.

(** What the script does to its surroundings, in the order it does it. *)
Inductive Effect : Type :=
| ECacheGet (key : string)
| ECacheSet (key : string) (value : JsValue)
| ECacheFlushAll
| EUpstream (call : UpstreamCall)
| ELog (level : string) (msg : string)
| EQrCode (code : string)
| EServerClose
| EClientDestroy
| EExit (code : Z).

Record World : Type := {
  data : gmap string NodeCache.Entry;   (* phoneNumberCache *)
  clock : Z;                            (* Date.now() *)
  trace : list Effect
}.

Definition note (e : Effect) (w : World) : World :=
  {| data := data w; clock := clock w; trace := trace w ++ [e] |}.

Definition at_time (now : Z) (w : World) : World :=
  {| data := data w; clock := now; trace := trace w |}.

(** The clock only moves forward. *)
Definition elapse (d : N) (w : World) : World := at_time (clock w + Z.of_N d) w.

Definition with_data (d : gmap string NodeCache.Entry) (w : World) : World :=
  {| data := d; clock := clock w; trace := trace w |}.

Section Interpreters.
(** [config.cache.ttl] and the client the routes were set up with. *)
Variable ttl : Z.
Variable client : Client.

Definition cache_get (key : string) (w : World) : JsValue * World :=
  let '(value, d) := NodeCache.get (clock w) key (data w) in
  (value, note (ECacheGet key) (with_data d w)).

Definition cache_set (key : string) (value : JsValue) (w : World) : World :=
  note (ECacheSet key value) (with_data (NodeCache.set ttl (clock w) key value (data w)) w).

(** One request served alone: every [await] waits for its promise. *)
Fixpoint run {A : Type} (p : Prog A) (w : World) : A * World :=
  match p with
  | Ret a => (a, w)
  | OpCacheGet key k => let '(value, w') := cache_get key w in run (k value) w'
  | OpCacheSet key value k => run k (cache_set key value w)
  | OpLogError _ msg k => run k (note (ELog "error" msg) w)
  | OpIsRegisteredUser id k =>
      let pr := isRegisteredUser client id in
      run (k (outcome pr)) (elapse (latency pr) (note (EUpstream (CallIsRegisteredUser id)) w))
  | OpGetContactById id k =>
      let pr := getContactById client id in
      run (k (outcome pr)) (elapse (latency pr) (note (EUpstream (CallGetContactById id)) w))
  | OpGetProfilePicUrl contact k =>
      let pr := getProfilePicUrl contact in
      run (k (outcome pr)) (elapse (latency pr) (note (EUpstream CallGetProfilePicUrl) w))
  end.

(** The same program up to its next [await]: it either finishes or is
    parked until its promise is due. *)
Inductive Paused (A : Type) : Type :=
| Finished (a : A)
| Parked (due : Z) (rest : Prog A).
Arguments Finished {A} a.
Arguments Parked {A} due rest.

Fixpoint advance {A : Type} (p : Prog A) (w : World) : Paused A * World :=
  match p with
  | Ret a => (Finished a, w)
  | OpCacheGet key k => let '(value, w') := cache_get key w in advance (k value) w'
  | OpCacheSet key value k => advance k (cache_set key value w)
  | OpLogError _ msg k => advance k (note (ELog "error" msg) w)
  | OpIsRegisteredUser id k =>
      let pr := isRegisteredUser client id in
      (Parked (clock w + Z.of_N (latency pr)) (k (outcome pr)),
       note (EUpstream (CallIsRegisteredUser id)) w)
  | OpGetContactById id k =>
      let pr := getContactById client id in
      (Parked (clock w + Z.of_N (latency pr)) (k (outcome pr)),
       note (EUpstream (CallGetContactById id)) w)
  | OpGetProfilePicUrl contact k =>
      let pr := getProfilePicUrl contact in
      (Parked (clock w + Z.of_N (latency pr)) (k (outcome pr)),
       note (EUpstream CallGetProfilePicUrl) w)
  end.
End Interpreters.
Arguments Finished {A} a.
Arguments Parked {A} due rest.

(** ** Requests in flight together *)

(** A request parked at an [await]: the rest of its handler, with the
    outcome of the promise already in it, and the time it is due. *)
Record Task : Type := { rid : nat; due : Z; rest : Prog Reply }.

Record Server : Type := {
  world : World;
  parked : list Task;
  replies : list (nat * Reply);
  next_rid : nat
}.

(** What the event loop picks up next. *)
Inductive Input : Type :=
| Arrive (time : Z) (phone : string)   (* a request for /check/<phone> *)
| Settle (id : nat)                    (* the promise request [id] waits for *)
| CheckPeriod (time : Z).              (* the cache's expiry timer *)

Definition later (time : Z) (w : World) : World := at_time (Z.max (clock w) time) w.

Fixpoint take_task (id : nat) (tasks : list Task) : option (Task * list Task) :=
  match tasks with
  | [] => None
  | tk :: more =>
      if Nat.eqb (rid tk) id then Some (tk, more)
      else match take_task id more with
           | Some (found, others) => Some (found, tk :: others)
           | None => None
           end
  end.

Section EventLoop.
Variable ttl : Z.
Variable client : Client.

(** Run request [id] from where it stands to its next [await] or to its
    reply. *)
Definition resume (id : nat) (p : Prog Reply) (w : World) (tasks : list Task)
    (sent : list (nat * Reply)) (next : nat) : Server :=
  match advance ttl client p w with
  | (Finished r, w') =>
      {| world := w'; parked := tasks; replies := sent ++ [(id, r)]; next_rid := next |}
  | (Parked d p', w') =>
      {| world := w'; parked := tasks ++ [{| rid := id; due := d; rest := p' |}];
         replies := sent; next_rid := next |}
  end.

Definition step (s : Server) (i : Input) : Server :=
  match i with
  | Arrive time phone =>
      resume (next_rid s) (getCheck phone) (later time (world s))
             (parked s) (replies s) (S (next_rid s))
  | Settle id =>
      match take_task id (parked s) with
      | Some (tk, others) =>
          resume id (rest tk) (later (due tk) (world s)) others (replies s) (next_rid s)
      | None => s
      end
  | CheckPeriod time =>
      let w := later time (world s) in
      {| world := with_data (NodeCache.checkData (clock w) (data w)) w;
         parked := parked s; replies := replies s; next_rid := next_rid s |}
  end.

Definition exec (s : Server) (inputs : list Input) : Server := fold_left step inputs s.
End EventLoop.

(** The process right after start: nothing cached, nothing in flight. *)
Definition boot (now : Z) : Server :=
  {| world := {| data := ∅; clock := now; trace := [] |};
     parked := []; replies := []; next_rid := 0 |}.

(** ** Shutdown *)

(** The Fastify instance as [gracefulShutdown] reads it:
    [server.server.listening]. *)
Record Fastify : Type := { listening : bool }.

Definition newline : string := String (ascii_of_nat 10) EmptyString.

(** [gracefulShutdown(client, server, signal)] on the course it takes when
    the awaited calls it makes, [server.close()] and [client.destroy()],
    resolve; [Process.gracefulShutdown] below is the function with the way
    these calls end as an argument.  [client] and [server] are [None] where
    the script passes [undefined] or [null].  Each call is recorded as an
    event when the script makes it.  The result is the world the process
    leaves behind and its exit code. *)
Definition gracefulShutdown (client : option Client) (server : option Fastify)
    (signal : string) (w : World) : World * Z :=
  let w := note (ELog "log" (newline +:+ "[SHUTDOWN] Received " +:+ signal
                             +:+ ". Closing application gracefully...")) w in
  let w := match server with
           | Some srv => if listening srv then note EServerClose w else w
           | None => w
           end in
  let w := match client with
           | Some c => if truthy (pupBrowser c) then note EClientDestroy w else w
           | None => w
           end in
  let w := note ECacheFlushAll (with_data (NodeCache.flushAll (data w)) w) in
  let w := note (ELog "log" "[SHUTDOWN] Cleanup complete. Exiting.") w in
  let code := if String.eqb signal "Startup Failure" then 1 else 0 in
  (note (EExit code) w, code).

(** The handlers of [initializeWhatsAppClient].  The result says whether
    the process is gone, and with which exit code; the shutdown after
    [auth_failure] is taken on the course where [destroy] resolves (see
    [Process.on_client_event] for the other). *)
Definition on_client_event (client : Client) (ev : ClientEvent) (w : World)
  : World * option Z :=
  match ev with
  | qr code =>
      (note (EQrCode code) (note (ELog "info" "QR code received. Scan it with your phone.") w),
       None)
  | loading_screen percent message =>
      (note (ELog "info" ("Loading: " +:+ pretty percent +:+ "% - " +:+ message)) w, None)
  | authenticated => (note (ELog "info" "Authentication successful!") w, None)
  | ready =>
      (note (ELog "info" "Client is ready. WhatsApp OSINT service is operational.") w, None)
  | auth_failure msg =>
      let w := note (ELog "error" ("Authentication failed: " +:+ msg)) w in
      let '(w, code) := gracefulShutdown (Some client) None "Authentication Failure" w in
      (w, Some code)
  | disconnected reason =>
      (note (ELog "warn" ("Client disconnected: " +:+ reason
                          +:+ ". Attempting to reconnect...")) w, None)
  end.

Inductive Signal : Type := SIGINT | SIGTERM.

Definition signal_name (sig : Signal) : string :=
  match sig with SIGINT => "SIGINT" | SIGTERM => "SIGTERM" end.

(** How far [main] gets inside its [try] block: the step that throws, with
    what [client] and [server] hold at that point, or none. *)
Inductive Startup : Type :=
| FastifyThrows
| ClientThrows (server : Fastify)
| InitializeRejects (server : Fastify) (client : Client)
| ListenRejects (server : Fastify) (client : Client)
| Started.

(** The [catch] block of [main], on the course where the awaited calls of
    the shutdown resolve. *)
Definition main_catch (client : option Client) (server : option Fastify) (w : World)
  : World * option Z :=
  let w := note (ELog "error" "[FATAL] A critical error occurred during startup:") w in
  let '(w, code) := gracefulShutdown client server "Startup Failure" w in
  (* [process.exit(1)] after it is never reached: the process is gone. *)
  (w, Some code).


(** ** Vocabulary of the properties *)

(** The three bodies the handler can send. *)
Definition hit_reply (cachedData : JsValue) : Reply :=
  {| statusCode := 200;
     headers := [("X-Cache-Status", "HIT")];
     payload := JObj [("success", JBool true); ("result", cachedData);
                      ("source", JStr "cache")] |}.

Definition live_reply (result : JsValue) : Reply :=
  {| statusCode := 200;
     headers := [("X-Cache-Status", "MISS")];
     payload := JObj [("success", JBool true); ("result", result);
                      ("source", JStr "live")] |}.

Definition internal_error : Reply :=
  {| statusCode := 500;
     headers := [("X-Cache-Status", "MISS")];
     payload := JObj [("success", JBool false);
                      ("error", JStr "An internal server error occurred.")] |}.

(** The record the handler builds for a registered number. *)
Definition profile_result (contact : Contact) (pfpUrl : JsValue) : JsValue :=
  JObj [("registered", JBool true);
        ("name", js_or (pushname contact) JNull);
        ("number", js_or (number contact) JNull);
        ("profile_picture_url", js_or pfpUrl JNull);
        ("is_business", js_or (isBusiness contact) (JBool false))].

Definition error_log_line (phone : string) : Effect :=
  ELog "error" ("Error processing request for phone: " +:+ phone).

(** The client has signalled [ready] at some point. *)
Definition session_ready (c : Client) : bool :=
  existsb (fun ev => match ev with ready => true | _ => false end) (emitted c).

(** How often [isRegisteredUser(id)] was called in a trace. *)
Fixpoint upstream_queries (id : string) (tr : list Effect) : nat :=
  match tr with
  | [] => 0%nat
  | EUpstream (CallIsRegisteredUser id') :: more =>
      ((if String.eqb id id' then 1 else 0) + upstream_queries id more)%nat
  | _ :: more => upstream_queries id more
  end.

(** An object with a boolean [registered] property. *)
Definition has_boolean_registered (value : JsValue) : bool :=
  match value with
  | JObj fields => match lookup_field "registered" fields with
                   | JBool _ => true
                   | _ => false
                   end
  | _ => false
  end.

(** Every [set] a program can reach stores such an object. *)
Fixpoint stores_results {A : Type} (p : Prog A) : Prop :=
  match p with
  | Ret _ => True
  | OpCacheGet _ k => forall x, stores_results (k x)
  | OpCacheSet _ value k => has_boolean_registered value = true /\ stores_results k
  | OpLogError _ _ k => stores_results k
  | OpIsRegisteredUser _ k => forall x, stores_results (k x)
  | OpGetContactById _ k => forall x, stores_results (k x)
  | OpGetProfilePicUrl _ k => forall x, stores_results (k x)
  end.

Definition holds_results (d : gmap string NodeCache.Entry) : Prop :=
  map_Forall (fun _ e => has_boolean_registered (NodeCache.v e) = true) d.

Definition stored_values (tr : list Effect) : list JsValue :=
  flat_map (fun e => match e with ECacheSet _ value => [value] | _ => [] end) tr.

(** The TTL window of an entry, read off the expiry the cache keeps:
    [now - insertedAt < ttl], in milliseconds; an entry stored with no
    expiry is always inside. *)
Definition insertedAt (ttl : Z) (e : NodeCache.Entry) : Z := NodeCache.t e - ttl * 1000.

Definition within_ttl (ttl now : Z) (e : NodeCache.Entry) : Prop :=
  NodeCache.t e = 0 \/ now - insertedAt ttl e < ttl * 1000.

(** A contact and two clients to try the handler on: one that answers,
    one whose calls fail because its page is not there yet. *)
Definition alice : Contact :=
  {| pushname := JStr "Alice";
     number := JStr "15559999999";
     isBusiness := JBool false;
     getProfilePicUrl := {| latency := 3; outcome := Resolved JUndefined |} |}.

Definition serving_client : Client :=
  {| emitted := [authenticated; ready];
     pupBrowser := JObj [];
     isRegisteredUser := fun _ => {| latency := 40; outcome := Resolved true |};
     getContactById := fun _ => {| latency := 25; outcome := Resolved alice |} |}.

Definition pairing_client : Client :=
  {| emitted := [qr "2@pairing"];
     pupBrowser := JObj [];
     isRegisteredUser := fun _ =>
       {| latency := 1; outcome := Rejected (JStr "Evaluation failed") |};
     getContactById := fun _ =>
       {| latency := 1; outcome := Rejected (JStr "Evaluation failed") |} |}.

Definition unlaunched_client : Client :=
  {| emitted := [];
     pupBrowser := JUndefined;
     isRegisteredUser := fun _ =>
       {| latency := 0; outcome := Rejected (JStr "pupPage is undefined") |};
     getContactById := fun _ =>
       {| latency := 0; outcome := Rejected (JStr "pupPage is undefined") |} |}.

Definition cold (now : Z) : World := {| data := ∅; clock := now; trace := [] |}.

(** The worlds a lone request passes through: after the cache was read,
    after each of the three client calls has settled. *)
Definition cached_value (phone : string) (w : World) : JsValue :=
  (NodeCache.get (clock w) (cacheKey phone) (data w)).1.

Definition after_read (phone : string) (w : World) : World :=
  note (ECacheGet (cacheKey phone))
       (with_data (NodeCache.get (clock w) (cacheKey phone) (data w)).2 w).

Definition after_ask (c : Client) (phone : string) (w : World) : World :=
  elapse (latency (isRegisteredUser c (phoneNumberId phone)))
         (note (EUpstream (CallIsRegisteredUser (phoneNumberId phone))) (after_read phone w)).

Definition after_contact (c : Client) (phone : string) (w : World) : World :=
  elapse (latency (getContactById c (phoneNumberId phone)))
         (note (EUpstream (CallGetContactById (phoneNumberId phone))) (after_ask c phone w)).

Definition after_picture (c : Client) (contact : Contact) (phone : string) (w : World)
  : World :=
  elapse (latency (getProfilePicUrl contact))
         (note (EUpstream CallGetProfilePicUrl) (after_contact c phone w)).

(** The six ways through the handler. *)
Inductive Served (ttl : Z) (c : Client) (phone : string) (w : World)
  : Reply * World -> Prop :=
| served_hit :
    truthy (cached_value phone w) = true ->
    Served ttl c phone w (hit_reply (cached_value phone w), after_read phone w)
| served_unregistered :
    truthy (cached_value phone w) = false ->
    outcome (isRegisteredUser c (phoneNumberId phone)) = Resolved false ->
    Served ttl c phone w
      (live_reply (JObj [("registered", JBool false)]),
       cache_set ttl (cacheKey phone) (JObj [("registered", JBool false)])
                 (after_ask c phone w))
| served_registered contact pfpUrl :
    truthy (cached_value phone w) = false ->
    outcome (isRegisteredUser c (phoneNumberId phone)) = Resolved true ->
    outcome (getContactById c (phoneNumberId phone)) = Resolved contact ->
    outcome (getProfilePicUrl contact) = Resolved pfpUrl ->
    Served ttl c phone w
      (live_reply (profile_result contact pfpUrl),
       cache_set ttl (cacheKey phone) (profile_result contact pfpUrl)
                 (after_picture c contact phone w))
| served_ask_failed error :
    truthy (cached_value phone w) = false ->
    outcome (isRegisteredUser c (phoneNumberId phone)) = Rejected error ->
    Served ttl c phone w (internal_error, note (error_log_line phone) (after_ask c phone w))
| served_contact_failed error :
    truthy (cached_value phone w) = false ->
    outcome (isRegisteredUser c (phoneNumberId phone)) = Resolved true ->
    outcome (getContactById c (phoneNumberId phone)) = Rejected error ->
    Served ttl c phone w
      (internal_error, note (error_log_line phone) (after_contact c phone w))
| served_picture_failed contact error :
    truthy (cached_value phone w) = false ->
    outcome (isRegisteredUser c (phoneNumberId phone)) = Resolved true ->
    outcome (getContactById c (phoneNumberId phone)) = Resolved contact ->
    outcome (getProfilePicUrl contact) = Rejected error ->
    Served ttl c phone w
      (internal_error, note (error_log_line phone) (after_picture c contact phone w)).

(** The bodies the specification words differently from the script: the
    validation failure, and the record of the registered example. *)
Definition claimed_validation_body : JsValue :=
  JObj [("success", JBool false); ("error", JStr "validation")].

Definition claimed_alice_result : JsValue :=
  JObj [("registered", JBool true);
        ("displayName", JStr "Alice");
        ("canonicalNumber", JStr "15559999999");
        ("avatarUrl", JNull);
        ("isBusiness", JBool false)].

(** A registered number whose picture cannot be fetched. *)
Definition faceless : Contact :=
  {| pushname := JStr "Bob";
     number := JStr "15550000000";
     isBusiness := JBool true;
     getProfilePicUrl := {| latency := 9; outcome := Rejected (JStr "Protocol error") |} |}.

Definition faceless_client : Client :=
  {| emitted := [authenticated; ready];
     pupBrowser := JObj [];
     isRegisteredUser := fun _ => {| latency := 40; outcome := Resolved true |};
     getContactById := fun _ => {| latency := 25; outcome := Resolved faceless |} |}.

(** The [result] property of the reply a lone request gets. *)
Definition served_result (ttl : Z) (c : Client) (phone : string) (w : World) : JsValue :=
  prop "result" (payload (run ttl c (getCheck phone) w).1).

(** What holds of the event loop at every moment: the cache holds lookup
    records only, nothing else was ever stored, and no parked request can
    store anything else. *)
Definition sound (s : Server) : Prop :=
  holds_results (data (world s))
  /\ Forall (fun value => has_boolean_registered value = true)
            (stored_values (trace (world s)))
  /\ Forall (fun tk => stores_results (rest tk)) (parked s).

(** [n] requests for the same number, one after the other. *)
Definition arrivals (phone : string) (times : list Z) : list Input :=
  map (fun time => Arrive time phone) times.

(** Two requests for one number, the second arriving while the first
    still waits for [isRegisteredUser]; and the same two once every promise
    has settled. *)
Definition two_in_flight : Server :=
  exec 600 serving_client (boot 0) (arrivals "15551234567" [1; 2]).

Definition two_answered : Server :=
  exec 600 serving_client two_in_flight
       [Settle 0; Settle 1; Settle 0; Settle 1; Settle 0; Settle 1].

(** One request served to its end by the event loop, and the entry it
    left in the cache. *)
Definition one_answered : Server :=
  exec 600 serving_client (boot 0)
       [Arrive 1 "15559999999"; Settle 0; Settle 0; Settle 0].

Definition alice_entry : NodeCache.Entry :=
  {| NodeCache.t := 600069; NodeCache.v := profile_result alice JUndefined |}.

(** A program that passes at most [n] [await]s before it returns. *)
Fixpoint awaits_at_most {A : Type} (n : nat) (p : Prog A) {struct p} : Prop :=
  match p with
  | Ret _ => True
  | OpCacheGet _ k => forall x, awaits_at_most n (k x)
  | OpCacheSet _ _ k => awaits_at_most n k
  | OpLogError _ _ k => awaits_at_most n k
  | OpIsRegisteredUser _ k =>
      match n with O => False | S m => forall x, awaits_at_most m (k x) end
  | OpGetContactById _ k =>
      match n with O => False | S m => forall x, awaits_at_most m (k x) end
  | OpGetProfilePicUrl _ k =>
      match n with O => False | S m => forall x, awaits_at_most m (k x) end
  end.

(** ** Finding the browser *)

(** How a synchronous call ends: with a value, or with the error it
    throws. *)
Inductive Completion (A : Type) : Type :=
| Normal (a : A)
| Throw (error : string).
Arguments Normal {A} a.
Arguments Throw {A} error.

Section ChromePath.
(** What the platform provides: [path.join] on segments that are all
    strings, and [fs.existsSync]. *)
Variable join : list string -> string.
Variable existsSync : string -> bool.

(** [process.env[name]]: a string, or [None] for [undefined]. *)
Variable env : string -> option string.

Fixpoint all_strings (segments : list (option string)) : option (list string) :=
  match segments with
  | [] => Some []
  | Some s :: more =>
      match all_strings more with
      | Some l => Some (s :: l)
      | None => None
      end
  | None :: _ => None
  end.

(** [path.join(...segments)]: a [TypeError] as soon as one segment is not a
    string. *)
Definition path_join (segments : list (option string)) : Completion string :=
  match all_strings segments with
  | Some l => Normal (join l)
  | None => Throw "ERR_INVALID_ARG_TYPE"
  end.

(** The array [paths] the function builds for the platform. *)
Definition chrome_candidates (platform : string) : Completion (list (option string)) :=
  if String.eqb platform "win32" then
    match path_join [env "ProgramFiles(x86)"; Some "Google"; Some "Chrome";
                     Some "Application"; Some "chrome.exe"] with
    | Throw e => Throw e
    | Normal in_x86 =>
        match path_join [env "ProgramFiles"; Some "Google"; Some "Chrome";
                         Some "Application"; Some "chrome.exe"] with
        | Throw e => Throw e
        | Normal in_pf => Normal [env "CHROME_PATH"; Some in_x86; Some in_pf]
        end
    end
  else if String.eqb platform "darwin" then
    Normal [env "CHROME_PATH";
            Some "/Applications/Google Chrome.app/Contents/MacOS/Google Chrome"]
  else
    Normal [env "CHROME_PATH";
            Some "/usr/bin/google-chrome-stable";
            Some "/usr/bin/google-chrome";
            Some "/usr/bin/chromium-browser"].

(** [p && existsSync(p)] *)
Definition usable (p : option string) : bool :=
  match p with
  | Some s => negb (String.eqb s "") && existsSync s
  | None => false
  end.

(** [paths.find(p => p && existsSync(p))] *)
Definition getChromeExecutablePath (platform : string) : Completion (option string) :=
  match chrome_candidates platform with
  | Throw e => Throw e
  | Normal paths =>
      Normal (match find usable paths with
              | Some p => p
              | None => None
              end)
  end.

(** The options [initializeWhatsAppClient] builds the client with. *)
Record ClientOptions : Type := {
  headless : string;
  executablePath : option string;
  args : list string;
  remotePath : string
}.

Definition puppeteer_args : list string :=
  ["--no-sandbox"; "--disable-setuid-sandbox"; "--disable-dev-shm-usage";
   "--disable-accelerated-2d-canvas"; "--no-first-run"; "--no-zygote"; "--disable-gpu"].

Definition webVersion : string := "2.3000.1023432202-alpha".

(** [initializeWhatsAppClient], up to the [new Client(...)]: the log line,
    then the options, whose evaluation searches for the browser. *)
Definition initializeWhatsAppClient (platform : string) (w : World)
  : World * Completion ClientOptions :=
  let w := note (ELog "info" "Initializing WhatsApp client...") w in
  match getChromeExecutablePath platform with
  | Throw e => (w, Throw e)
  | Normal found =>
      (w, Normal {| headless := "new";
                    executablePath := found;
                    args := puppeteer_args;
                    remotePath :=
                      "https://raw.githubusercontent.com/wppconnect-team/wa-version/main/html/"
                      +:+ webVersion +:+ ".html" |})
  end.

(** The first two steps of [main]: the Fastify instance, which does not
    listen yet, then the client.  When the second throws, [client] is still
    unassigned in the [catch] block. *)
Definition main_to_client (platform : string) (w : World)
  : (World * option Z) + (World * ClientOptions) :=
  match initializeWhatsAppClient platform w with
  | (w', Throw _) => inl (main_catch None (Some {| listening := false |}) w')
  | (w', Normal options) => inr (w', options)
  end.
End ChromePath.

(** What [gracefulShutdown] and the handlers add to a trace that started
    as [before]. *)
Definition added_since (before after : list Effect) : list Effect :=
  drop (length before) after.

(** Two machines to try the search on: a Linux box with Chrome under
    [/usr/bin/google-chrome] and no variable set, and a 32-bit Windows,
    which has no [ProgramFiles(x86)], with [CHROME_PATH] pointing at a
    browser that is there. *)
Definition posix_join (segments : list string) : string := String.concat "/" segments.

Definition win32_join (segments : list string) : string := String.concat "\" segments.

Definition linux_env (name : string) : option string := None.

Definition linux_disk (p : string) : bool := String.eqb p "/usr/bin/google-chrome".

Definition windows32_env (name : string) : option string :=
  if String.eqb name "ProgramFiles" then Some "C:\Program Files"
  else if String.eqb name "CHROME_PATH" then Some "D:\Chrome\chrome.exe"
  else None.

Definition windows32_disk (p : string) : bool := String.eqb p "D:\Chrome\chrome.exe".

Definition override_env (name : string) : option string :=
  if String.eqb name "CHROME_PATH" then Some "/opt/chrome/chrome" else None.

Definition override_disk (p : string) : bool :=
  String.eqb p "/opt/chrome/chrome" || String.eqb p "/usr/bin/google-chrome".

(** An effect that only shows something: a log line or the pairing code. *)
Definition is_display (e : Effect) : bool :=
  match e with
  | ELog _ _ | EQrCode _ => true
  | _ => false
  end.

(** The calls to the client in a trace, in order. *)
Definition upstream_calls (tr : list Effect) : list UpstreamCall :=
  flat_map (fun e => match e with EUpstream call => [call] | _ => [] end) tr.

(** A client whose browser runs and a server that listens. *)
Definition listening_server : Fastify := {| listening := true |}.

(** A client for which no number is registered. *)
Definition nobody_client : Client :=
  {| emitted := [authenticated; ready];
     pupBrowser := JObj [];
     isRegisteredUser := fun _ => {| latency := 30; outcome := Resolved false |};
     getContactById := fun _ => {| latency := 1; outcome := Rejected (JStr "not found") |} |}.

(** An entry stored at time 0 with the default TTL, and a world one second
    past its expiry. *)
Definition stale_entry : NodeCache.Entry :=
  {| NodeCache.t := 600000; NodeCache.v := JObj [("registered", JBool false)] |}.

Definition stale_world : World :=
  {| data := {[ cacheKey "15559999999" := stale_entry ]}; clock := 601000; trace := [] |}.

(** A key the handler can have made: the prefix, then a valid identifier. *)
Definition is_lookup_key (key : string) : Prop :=
  exists phone, key = cacheKey phone /\ fastify.matches_schema phone = true.

(** Every [set] a program can reach is on such a key. *)
Fixpoint writes_lookup_keys {A : Type} (p : Prog A) : Prop :=
  match p with
  | Ret _ => True
  | OpCacheGet _ k => forall x, writes_lookup_keys (k x)
  | OpCacheSet key _ k => is_lookup_key key /\ writes_lookup_keys k
  | OpLogError _ _ k => writes_lookup_keys k
  | OpIsRegisteredUser _ k => forall x, writes_lookup_keys (k x)
  | OpGetContactById _ k => forall x, writes_lookup_keys (k x)
  | OpGetProfilePicUrl _ k => forall x, writes_lookup_keys (k x)
  end.

Definition keyed (s : Server) : Prop :=
  map_Forall (fun key _ => is_lookup_key key) (data (world s))
  /\ Forall (fun tk => writes_lookup_keys (rest tk)) (parked s).

(** A contact whose name is the empty string and whose other fields are
    missing. *)
Definition nameless : Contact :=
  {| pushname := JStr "";
     number := JUndefined;
     isBusiness := JNull;
     getProfilePicUrl := {| latency := 2; outcome := Resolved JUndefined |} |}.

Definition nameless_client : Client :=
  {| emitted := [authenticated; ready];
     pupBrowser := JObj [];
     isRegisteredUser := fun _ => {| latency := 40; outcome := Resolved true |};
     getContactById := fun _ => {| latency := 25; outcome := Resolved nameless |} |}.

(** A world that holds Alice's record, stored at time 69 with the default
    TTL, one second before its expiry. *)
Definition warm_world : World :=
  {| data := {[ cacheKey "15559999999" := alice_entry ]}; clock := 599069; trace := [] |}.

(** ** The router in front of the route *)

Module router.
(** Fastify's [maxParamLength], which the script leaves at its default. *)
Definition maxParamLength : nat := 100.

Section Refusal.
(** The body of the router's refusal is the framework's and is left
    open. *)
Variable refusal : JsValue.

(** The reply to a path parameter longer than [maxParamLength]. *)
Definition param_too_long : Reply :=
  {| statusCode := 414; headers := []; payload := refusal |}.

(** A request for [/check/<phone>] as the server answers it: the router
    refuses a parameter that is too long before the schema of the route is
    looked at; every other parameter goes to the schema and, from there,
    to the handler. *)
Definition request (phone : string) : Prog Reply :=
  if (maxParamLength <? String.length phone)%nat then mret param_too_long
  else getCheck phone.
End Refusal.
End router.

(** ** The end of the process, with awaited calls that may fail *)

Module Process.

(** How [server.close()] and [client.destroy()] end when they are called. *)
Record Teardown : Type := {
  close_ends : Outcome unit;
  destroy_ends : Outcome unit
}.

(** How the process ends: by [process.exit(code)], or by a rejection that
    nothing handles. *)
Inductive End : Type :=
| Exited (code : Z)
| Uncaught (error : JsValue).

(** The exit code the operating system sees.  Node ends a process whose
    promise rejection stays unhandled with code 1. *)
Definition exit_code (e : End) : Z :=
  match e with
  | Exited code => code
  | Uncaught _ => 1
  end.

Definition is_resolved {A : Type} (o : Outcome A) : bool :=
  match o with Resolved _ => true | Rejected _ => false end.

(** [gracefulShutdown(client, server, signal)] with its two [await]s.  The
    function has no [try]: when an awaited call rejects, the rest of the
    body (the flush, the second log line, [process.exit]) does not run and
    the promise of the function is rejected. *)
Definition gracefulShutdown (calls : Teardown) (client : option Client)
    (server : option Fastify) (signal : string) (w : World) : World * End :=
  let w := note (ELog "log" (newline +:+ "[SHUTDOWN] Received " +:+ signal
                             +:+ ". Closing application gracefully...")) w in
  let closing :=
    match server with
    | Some srv => if listening srv then (note EServerClose w, close_ends calls)
                  else (w, Resolved tt)
    | None => (w, Resolved tt)
    end in
  match closing with
  | (w, Rejected error) => (w, Uncaught error)
  | (w, Resolved _) =>
      let destroying :=
        match client with
        | Some c => if truthy (pupBrowser c) then (note EClientDestroy w, destroy_ends calls)
                    else (w, Resolved tt)
        | None => (w, Resolved tt)
        end in
      match destroying with
      | (w, Rejected error) => (w, Uncaught error)
      | (w, Resolved _) =>
          let w := note ECacheFlushAll (with_data (NodeCache.flushAll (data w)) w) in
          let w := note (ELog "log" "[SHUTDOWN] Cleanup complete. Exiting.") w in
          let code := if String.eqb signal "Startup Failure" then 1 else 0 in
          (note (EExit code) w, Exited code)
      end
  end.

(** Every awaited call the function gets to make resolves. *)
Definition calls_resolve (calls : Teardown) (client : option Client)
    (server : option Fastify) : bool :=
  match server with
  | Some srv => if listening srv then is_resolved (close_ends calls) else true
  | None => true
  end
  && match client with
     | Some c => if truthy (pupBrowser c) then is_resolved (destroy_ends calls) else true
     | None => true
     end.

(** The handlers of [initializeWhatsAppClient].  The handler of
    [auth_failure] calls [gracefulShutdown] and drops its promise. *)
Definition on_client_event (calls : Teardown) (client : Client) (ev : ClientEvent)
    (w : World) : World * option End :=
  match ev with
  | qr code =>
      (note (EQrCode code) (note (ELog "info" "QR code received. Scan it with your phone.") w),
       None)
  | loading_screen percent message =>
      (note (ELog "info" ("Loading: " +:+ pretty percent +:+ "% - " +:+ message)) w, None)
  | authenticated => (note (ELog "info" "Authentication successful!") w, None)
  | ready =>
      (note (ELog "info" "Client is ready. WhatsApp OSINT service is operational.") w, None)
  | auth_failure msg =>
      let w := note (ELog "error" ("Authentication failed: " +:+ msg)) w in
      let '(w, e) := gracefulShutdown calls (Some client) None "Authentication Failure" w in
      (w, Some e)
  | disconnected reason =>
      (note (ELog "warn" ("Client disconnected: " +:+ reason
                          +:+ ". Attempting to reconnect...")) w, None)
  end.

(** [process.on(signal, () => gracefulShutdown(client, server, signal))] *)
Definition on_signal (calls : Teardown) (client : Client) (server : Fastify)
    (sig : Signal) (w : World) : World * End :=
  gracefulShutdown calls (Some client) (Some server) (signal_name sig) w.

(** The [catch] block of [main].  The [process.exit(1)] after the awaited
    [gracefulShutdown] is never reached: either the process is gone, or
    the [await] throws. *)
Definition main_catch (calls : Teardown) (client : option Client)
    (server : option Fastify) (w : World) : World * option End :=
  let w := note (ELog "error" "[FATAL] A critical error occurred during startup:") w in
  let '(w, e) := gracefulShutdown calls client server "Startup Failure" w in
  (w, Some e).

(** [main]: [server] is assigned first and [client] after it, so the
    [catch] block sees as many of them as the [try] block got to. *)
Definition main (calls : Teardown) (s : Startup) (w : World) : World * option End :=
  match s with
  | FastifyThrows => main_catch calls None None w
  | ClientThrows server =>
      main_catch calls None (Some server)
                 (note (ELog "info" "Initializing WhatsApp client...") w)
  | InitializeRejects server client | ListenRejects server client =>
      main_catch calls (Some client) (Some server)
                 (note (ELog "info" "Initializing WhatsApp client...") w)
  | Started => (note (ELog "info" "Initializing WhatsApp client...") w, None)
  end.

End Process.

(** Teardown calls that go well, and a browser that is gone when
    [destroy] wants to close it. *)
Definition clean_teardown : Process.Teardown :=
  {| Process.close_ends := Resolved tt; Process.destroy_ends := Resolved tt |}.

Definition crashed_browser : Process.Teardown :=
  {| Process.close_ends := Resolved tt;
     Process.destroy_ends := Rejected (JStr "Protocol error: Target closed") |}.

(** A client that has not signalled [ready] and answers all the same. *)
Definition early_client : Client :=
  {| emitted := [authenticated];
     pupBrowser := JObj [];
     isRegisteredUser := fun _ => {| latency := 40; outcome := Resolved true |};
     getContactById := fun _ => {| latency := 25; outcome := Resolved alice |} |}.

(** * Properties *)

Ltac open_handler :=
  unfold getCheck, handler, lookup, try_catch, and_then,
    phoneNumberCache_get, phoneNumberCache_set, server_log_error,
    client_isRegisteredUser, client_getContactById, contact_getProfilePicUrl;
  cbn [mbind mret Prog_bind Prog_ret bind].

(** ** The handler, path by path *)

Lemma run_getCheck_served ttl c phone w :
  fastify.matches_schema phone = true ->
  Served ttl c phone w (run ttl c (getCheck phone) w).
Proof.
  intros Hvalid.
  unfold getCheck. rewrite Hvalid. open_handler.
  cbn [run]. unfold cache_get.
  pose proof (served_hit ttl c phone w) as Hhit.
  pose proof (served_unregistered ttl c phone w) as Hunreg.
  pose proof (served_registered ttl c phone w) as Hreg.
  pose proof (served_ask_failed ttl c phone w) as Hask.
  pose proof (served_contact_failed ttl c phone w) as Hcontact.
  pose proof (served_picture_failed ttl c phone w) as Hpicture.
  unfold after_picture, after_contact, after_ask in *.
  unfold after_read, cached_value in *.
  destruct (NodeCache.get (clock w) (cacheKey phone) (data w)) as [cached d].
  cbn [fst snd] in *.
  destruct (truthy cached).
  { exact (Hhit eq_refl). }
  cbn [run].
  destruct (outcome (isRegisteredUser c (phoneNumberId phone))) as [[|]|e1].
  - cbn [mbind mret Prog_bind Prog_ret bind run].
    destruct (outcome (getContactById c (phoneNumberId phone))) as [contact|e2].
    + cbn [mbind mret Prog_bind Prog_ret bind run].
      destruct (outcome (getProfilePicUrl contact)) as [pfpUrl|e3] eqn:Hpfp.
      * cbn [mbind mret Prog_bind Prog_ret bind run].
        exact (Hreg contact pfpUrl eq_refl eq_refl eq_refl Hpfp).
      * cbn [mbind mret Prog_bind Prog_ret bind run].
        exact (Hpicture contact e3 eq_refl eq_refl eq_refl Hpfp).
    + cbn [mbind mret Prog_bind Prog_ret bind run].
      exact (Hcontact e2 eq_refl eq_refl eq_refl).
  - cbn [mbind mret Prog_bind Prog_ret bind run].
    exact (Hunreg eq_refl eq_refl).
  - cbn [mbind mret Prog_bind Prog_ret bind run].
    exact (Hask e1 eq_refl eq_refl).
Qed.

Lemma run_getCheck_hit ttl c phone w :
  fastify.matches_schema phone = true ->
  truthy (cached_value phone w) = true ->
  run ttl c (getCheck phone) w = (hit_reply (cached_value phone w), after_read phone w).
Proof.
  intros Hvalid Hhit.
  destruct (run_getCheck_served ttl c phone w Hvalid); congruence.
Qed.

(** The reply depends on the world through the value read from the cache
    only. *)
Lemma reply_determined ttl ttl' c phone w w' :
  cached_value phone w = cached_value phone w' ->
  (run ttl c (getCheck phone) w).1 = (run ttl' c (getCheck phone) w').1.
Proof.
  unfold cached_value, getCheck. intros Hsame.
  destruct (fastify.matches_schema phone); [|reflexivity].
  open_handler. cbn [run]. unfold cache_get.
  destruct (NodeCache.get (clock w) (cacheKey phone) (data w)) as [cached d].
  destruct (NodeCache.get (clock w') (cacheKey phone) (data w')) as [cached' d'].
  cbn [fst] in Hsame. subst cached'.
  destruct (truthy cached); [reflexivity|].
  cbn [run].
  destruct (outcome (isRegisteredUser c (phoneNumberId phone))) as [[|]|e1];
    cbn [mbind mret Prog_bind Prog_ret bind run]; try reflexivity.
  destruct (outcome (getContactById c (phoneNumberId phone))) as [contact|e2];
    cbn [mbind mret Prog_bind Prog_ret bind run]; try reflexivity.
  destruct (outcome (getProfilePicUrl contact)) as [pfpUrl|e3];
    cbn [mbind mret Prog_bind Prog_ret bind run]; reflexivity.
Qed.

(** ** The configured TTL *)

Lemma cache_ttl_nonzero parsed : config.cache_ttl parsed <> 0.
Proof.
  unfold config.cache_ttl. destruct parsed as [n|]; [|done].
  destruct (n =? 0) eqn:Hn; [done|]. by apply Z.eqb_neq.
Qed.

(** With the configured TTL every entry carries an expiry time. *)
Lemma configured_entry_expires parsed now value :
  NodeCache.t (NodeCache.wrap (config.cache_ttl parsed) now value)
  = now + config.cache_ttl parsed * 1000.
Proof.
  unfold NodeCache.wrap. cbn [NodeCache.t].
  pose proof (cache_ttl_nonzero parsed) as Hnz. apply Z.eqb_neq in Hnz. by rewrite Hnz.
Qed.

(** ** The cache *)

Lemma get_subseteq now key (d : gmap string NodeCache.Entry) :
  (NodeCache.get now key d).2 ⊆ d.
Proof.
  unfold NodeCache.get.
  destruct (d !! key) as [e|]; [destruct (NodeCache.expired now e)|]; cbn [snd];
    [apply delete_subseteq|reflexivity|reflexivity].
Qed.

Lemma get_fresh now key (d : gmap string NodeCache.Entry) e :
  d !! key = Some e ->
  NodeCache.expired now e = false ->
  NodeCache.get now key d = (NodeCache.unwrap e, d).
Proof. intros Hlook Hfresh. unfold NodeCache.get. by rewrite Hlook, Hfresh. Qed.

Lemma get_truthy now key (d : gmap string NodeCache.Entry) :
  truthy (NodeCache.get now key d).1 = true ->
  exists e, d !! key = Some e /\ NodeCache.expired now e = false
            /\ NodeCache.get now key d = (NodeCache.unwrap e, d).
Proof.
  unfold NodeCache.get.
  destruct (d !! key) as [e|] eqn:Hlook; [|discriminate].
  destruct (NodeCache.expired now e) eqn:Hexp; [discriminate|].
  intros _. by exists e.
Qed.

Lemma expired_mono now now' e :
  now <= now' -> NodeCache.expired now e = true -> NodeCache.expired now' e = true.
Proof.
  unfold NodeCache.expired. intros Hle.
  rewrite !andb_true_iff, !Z.ltb_lt. intros [Hnz Hlt]. split; [done|lia].
Qed.

(** Reading a key drops at most an entry that every later reader would
    find expired too: what the cache answers does not change. *)
Lemma get_leaves_answers now key (d : gmap string NodeCache.Entry) k now' :
  now <= now' ->
  (NodeCache.get now' k (NodeCache.get now key d).2).1 = (NodeCache.get now' k d).1.
Proof.
  intros Hle. unfold NodeCache.get at 2.
  destruct (d !! key) as [e|] eqn:Hlook; [|reflexivity].
  destruct (NodeCache.expired now e) eqn:Hexp; [|reflexivity].
  cbn [snd]. unfold NodeCache.get.
  destruct (decide (k = key)) as [->|Hne].
  - rewrite lookup_delete_eq, Hlook.
    by rewrite (expired_mono now now' e Hle Hexp).
  - rewrite lookup_delete_ne by congruence.
    destruct (d !! k) as [e'|]; [destruct (NodeCache.expired now' e')|]; reflexivity.
Qed.

Lemma within_ttl_fresh ttl now e :
  within_ttl ttl now e -> NodeCache.expired now e = false.
Proof.
  unfold within_ttl, insertedAt, NodeCache.expired.
  intros [Hnever|Hinside].
  - rewrite Hnever. reflexivity.
  - apply andb_false_iff. right. apply Z.ltb_ge. lia.
Qed.

Lemma stored_values_app tr tr' :
  stored_values (tr ++ tr') = stored_values tr ++ stored_values tr'.
Proof. unfold stored_values. apply flat_map_app. Qed.

Lemma upstream_queries_app id tr tr' :
  upstream_queries id (tr ++ tr') = (upstream_queries id tr + upstream_queries id tr')%nat.
Proof.
  induction tr as [|e tr IH]; [reflexivity|].
  destruct e as [| | |[]| | | | |]; cbn [app upstream_queries]; rewrite IH; lia.
Qed.

(** ** The schema *)

Lemma forallb_false_Exists {A : Type} (f : A -> bool) (l : list A) :
  forallb f l = false <-> Exists (fun x => f x = false) l.
Proof.
  induction l as [|x l IH]; cbn [forallb].
  - split; [discriminate|]. intros Hex. inversion Hex.
  - rewrite andb_false_iff, IH. split.
    + intros [Hx|Hl]; [by apply Exists_cons_hd|by apply Exists_cons_tl].
    + intros Hex. inversion Hex; subst; [by left|by right].
Qed.

Lemma matches_schema_spec phone :
  fastify.matches_schema phone = false <->
  phone = "" \/ Exists (fun ch => fastify.is_digit ch = false) (list_ascii_of_string phone).
Proof.
  destruct phone as [|ch rest].
  { split; [by left|reflexivity]. }
  unfold fastify.matches_schema. rewrite forallb_false_Exists.
  split; [by right|]. intros [Hempty|Hex]; [discriminate|done].
Qed.

(** C4 (amended).  A raw identifier that is empty or holds a character
    that is not a digit never reaches the handler.  If it is at most 100
    characters long it fails the schema of the route and the framework
    answers in the handler's place: status 400 with its own error object
    (code FST_ERR_VALIDATION, error "Bad Request", no [success] property).
    If it is longer the router has refused it before, with status 414.
    Either way the world is the one the request found, with no cache
    access and no call to the client, whether the request is served alone
    or by the event loop. *)
Theorem invalid_identifier_stops_before_handler refusal ttl c phone w :
  phone = "" \/ Exists (fun ch => fastify.is_digit ch = false) (list_ascii_of_string phone) ->
  run ttl c (router.request refusal phone) w
  = (if (100 <? String.length phone)%nat then router.param_too_long refusal
     else fastify.validation_error, w)
  /\ statusCode (run ttl c (router.request refusal phone) w).1
     = (if (100 <? String.length phone)%nat then 414 else 400)
  /\ advance ttl c (router.request refusal phone) w
     = (Finished (run ttl c (router.request refusal phone) w).1, w)
  /\ ((String.length phone <= 100)%nat ->
      prop "code" (payload (run ttl c (router.request refusal phone) w).1)
      = JStr "FST_ERR_VALIDATION"
      /\ prop "error" (payload (run ttl c (router.request refusal phone) w).1)
         = JStr "Bad Request"
      /\ prop "success" (payload (run ttl c (router.request refusal phone) w).1)
         = JUndefined).
Proof.
  intros Hbad. apply matches_schema_spec in Hbad.
  unfold router.request, router.maxParamLength, getCheck. rewrite Hbad.
  destruct (100 <? String.length phone)%nat eqn:Hlong;
    (split; [reflexivity|split; [reflexivity|split; [reflexivity|]]]); intros Hshort.
  - apply Nat.ltb_lt in Hlong. lia.
  - by repeat split.
Qed.

Lemma invalid_identifier_stops_before_handler_witness :
  run 600 serving_client (router.request JNull "abc") (cold 0)
  = (if (100 <? String.length "abc")%nat then router.param_too_long JNull
     else fastify.validation_error, cold 0)
  /\ statusCode (run 600 serving_client (router.request JNull "abc") (cold 0)).1
     = (if (100 <? String.length "abc")%nat then 414 else 400)
  /\ advance 600 serving_client (router.request JNull "abc") (cold 0)
     = (Finished (run 600 serving_client (router.request JNull "abc") (cold 0)).1, cold 0)
  /\ ((String.length "abc" <= 100)%nat ->
      prop "code" (payload (run 600 serving_client (router.request JNull "abc") (cold 0)).1)
      = JStr "FST_ERR_VALIDATION"
      /\ prop "error" (payload (run 600 serving_client (router.request JNull "abc") (cold 0)).1)
         = JStr "Bad Request"
      /\ prop "success" (payload (run 600 serving_client (router.request JNull "abc") (cold 0)).1)
         = JUndefined).
Proof.
  apply (invalid_identifier_stops_before_handler JNull 600 serving_client "abc" (cold 0)).
  right. apply Exists_cons_hd. reflexivity.
Defined.

(** The router lets every identifier of at most 100 characters through to
    the route, and no other. *)
Lemma request_within_limit refusal phone :
  (String.length phone <= 100)%nat -> router.request refusal phone = getCheck phone.
Proof.
  intros Hshort. unfold router.request, router.maxParamLength.
  destruct (100 <? String.length phone)%nat eqn:Hlong; [|reflexivity].
  apply Nat.ltb_lt in Hlong. lia.
Qed.

Lemma request_over_limit refusal ttl c phone w :
  (100 < String.length phone)%nat ->
  run ttl c (router.request refusal phone) w = (router.param_too_long refusal, w).
Proof.
  intros Hlong. unfold router.request, router.maxParamLength.
  apply Nat.ltb_lt in Hlong. by rewrite Hlong.
Qed.

(** C4, as the specification words it, fails on "abc": the reply has
    status 400, but its body is the framework's, not
    [{success:false, error:"validation"}]. *)
Lemma validation_body_counterexample :
  fastify.matches_schema "abc" = false
  /\ statusCode (run 600 serving_client (getCheck "abc") (cold 0)).1 = 400
  /\ payload (run 600 serving_client (getCheck "abc") (cold 0)).1 <> claimed_validation_body
  /\ prop "success" (payload (run 600 serving_client (getCheck "abc") (cold 0)).1)
     <> prop "success" claimed_validation_body
  /\ prop "error" (payload (run 600 serving_client (getCheck "abc") (cold 0)).1)
     <> prop "error" claimed_validation_body.
Proof. repeat split; discriminate. Qed.

(** ** Failures inside the lookup *)

(** C5.  The registration check answers "registered" and the profile
    fetch then fails, at [getContactById] or at [getProfilePicUrl]: the
    reply is the 500 reply with [success:false] and no [result] at all,
    the handler calls [set] on the cache not once, no entry appears in it,
    and every key reads as it did before the request. *)
Theorem failed_profile_fetch_fails_lookup ttl c phone w :
  fastify.matches_schema phone = true ->
  truthy (cached_value phone w) = false ->
  outcome (isRegisteredUser c (phoneNumberId phone)) = Resolved true ->
  ((exists error, outcome (getContactById c (phoneNumberId phone)) = Rejected error)
   \/ (exists contact error,
         outcome (getContactById c (phoneNumberId phone)) = Resolved contact
         /\ outcome (getProfilePicUrl contact) = Rejected error)) ->
  (run ttl c (getCheck phone) w).1 = internal_error
  /\ prop "success" (payload (run ttl c (getCheck phone) w).1) = JBool false
  /\ prop "result" (payload (run ttl c (getCheck phone) w).1) = JUndefined
  /\ stored_values (trace (run ttl c (getCheck phone) w).2) = stored_values (trace w)
  /\ data (run ttl c (getCheck phone) w).2 ⊆ data w
  /\ (forall k now, clock w <= now ->
        (NodeCache.get now k (data (run ttl c (getCheck phone) w).2)).1
        = (NodeCache.get now k (data w)).1).
Proof.
  intros Hvalid Hmiss Hreg Hfail.
  destruct (run_getCheck_served ttl c phone w Hvalid)
    as [Hhit|_ Hreg'|contact pfpUrl _ _ Hcontact Hpfp|error _ Hreg'
        |error _ _ Hcontact|contact error _ _ Hcontact Hpfp];
    try congruence.
  - destruct Hfail as [[error Hrej]|(contact' & error & Hres & Hrej)]; congruence.
  - cbn [fst snd]. repeat split.
    + cbn. rewrite !stored_values_app. cbn. by rewrite !app_nil_r.
    + apply get_subseteq.
    + intros k now Hle. by apply get_leaves_answers.
  - cbn [fst snd]. repeat split.
    + cbn. rewrite !stored_values_app. cbn. by rewrite !app_nil_r.
    + apply get_subseteq.
    + intros k now Hle. by apply get_leaves_answers.
Qed.

Lemma failed_profile_fetch_fails_lookup_witness :
  (run 600 faceless_client (getCheck "15550000000") (cold 0)).1 = internal_error
  /\ prop "success" (payload (run 600 faceless_client (getCheck "15550000000") (cold 0)).1)
     = JBool false
  /\ prop "result" (payload (run 600 faceless_client (getCheck "15550000000") (cold 0)).1)
     = JUndefined
  /\ stored_values (trace (run 600 faceless_client (getCheck "15550000000") (cold 0)).2)
     = stored_values (trace (cold 0))
  /\ data (run 600 faceless_client (getCheck "15550000000") (cold 0)).2 ⊆ data (cold 0)
  /\ (forall k now, clock (cold 0) <= now ->
        (NodeCache.get now k
           (data (run 600 faceless_client (getCheck "15550000000") (cold 0)).2)).1
        = (NodeCache.get now k (data (cold 0))).1).
Proof.
  apply (failed_profile_fetch_fails_lookup 600 faceless_client "15550000000" (cold 0)).
  - reflexivity.
  - reflexivity.
  - reflexivity.
  - right. exists faceless, (JStr "Protocol error"). split; reflexivity.
Defined.

(** ** The record for a registered number *)

(** C7 (amended).  For a registered number the record has exactly the
    properties [registered], [name], [number], [profile_picture_url] and
    [is_business], in that order.  A name, number or picture address the
    client leaves undefined becomes [null], an undefined business flag
    becomes [false], and a value that is there (and truthy) is passed on
    as it is. *)
Theorem registered_result_fields ttl c phone w contact pfpUrl :
  fastify.matches_schema phone = true ->
  truthy (cached_value phone w) = false ->
  outcome (isRegisteredUser c (phoneNumberId phone)) = Resolved true ->
  outcome (getContactById c (phoneNumberId phone)) = Resolved contact ->
  outcome (getProfilePicUrl contact) = Resolved pfpUrl ->
  served_result ttl c phone w
  = JObj [("registered", JBool true);
          ("name", js_or (pushname contact) JNull);
          ("number", js_or (number contact) JNull);
          ("profile_picture_url", js_or pfpUrl JNull);
          ("is_business", js_or (isBusiness contact) (JBool false))]
  /\ keys (served_result ttl c phone w)
     = ["registered"; "name"; "number"; "profile_picture_url"; "is_business"]
  /\ (pushname contact = JUndefined -> prop "name" (served_result ttl c phone w) = JNull)
  /\ (number contact = JUndefined -> prop "number" (served_result ttl c phone w) = JNull)
  /\ (pfpUrl = JUndefined ->
      prop "profile_picture_url" (served_result ttl c phone w) = JNull)
  /\ (isBusiness contact = JUndefined ->
      prop "is_business" (served_result ttl c phone w) = JBool false)
  /\ (truthy (pushname contact) = true ->
      prop "name" (served_result ttl c phone w) = pushname contact)
  /\ (truthy (number contact) = true ->
      prop "number" (served_result ttl c phone w) = number contact)
  /\ (truthy pfpUrl = true ->
      prop "profile_picture_url" (served_result ttl c phone w) = pfpUrl)
  /\ (truthy (isBusiness contact) = true ->
      prop "is_business" (served_result ttl c phone w) = isBusiness contact).
Proof.
  intros Hvalid Hmiss Hreg Hcontact Hpfp.
  assert (served_result ttl c phone w = profile_result contact pfpUrl) as ->.
  { unfold served_result.
    destruct (run_getCheck_served ttl c phone w Hvalid)
      as [Hhit|_ Hreg'|contact' pfpUrl' _ _ Hcontact' Hpfp'|error _ Hreg'
          |error _ _ Hcontact'|contact' error _ _ Hcontact' Hpfp'];
      try congruence.
    assert (contact' = contact) as -> by congruence.
    assert (pfpUrl' = pfpUrl) as -> by congruence.
    reflexivity. }
  unfold profile_result, js_or.
  repeat split; intros Hgiven; cbn; by rewrite Hgiven.
Qed.

Lemma registered_result_fields_witness :
  served_result 600 serving_client "15559999999" (cold 0)
  = JObj [("registered", JBool true);
          ("name", JStr "Alice");
          ("number", JStr "15559999999");
          ("profile_picture_url", JNull);
          ("is_business", JBool false)].
Proof.
  exact (proj1 (registered_result_fields 600 serving_client "15559999999" (cold 0)
                  alice JUndefined eq_refl eq_refl eq_refl eq_refl eq_refl)).
Defined.

(** C7, as the specification words it, fails on its own example: for
    "Alice" the record has no [displayName], [canonicalNumber], [avatarUrl]
    or [isBusiness] property. *)
Lemma alice_result_counterexample :
  served_result 600 serving_client "15559999999" (cold 0) <> claimed_alice_result
  /\ keys (served_result 600 serving_client "15559999999" (cold 0))
     <> keys claimed_alice_result
  /\ prop "displayName" (served_result 600 serving_client "15559999999" (cold 0))
     = JUndefined
  /\ prop "canonicalNumber" (served_result 600 serving_client "15559999999" (cold 0))
     = JUndefined
  /\ prop "avatarUrl" (served_result 600 serving_client "15559999999" (cold 0))
     = JUndefined
  /\ prop "isBusiness" (served_result 600 serving_client "15559999999" (cold 0))
     = JUndefined
  /\ prop "name" (served_result 600 serving_client "15559999999" (cold 0))
     = JStr "Alice".
Proof. repeat split; discriminate. Qed.

(** ** A session that is not ready *)

(** C2 (amended).  The handler never asks whether the client has
    signalled [ready].  With a session that is not ready a request is
    answered like any other.  A live entry in the cache is served as a
    hit.  On a miss the client is asked, and then: the generic 500 reply,
    with nothing stored, as soon as one of the calls made fails (the
    registration check, the contact, the picture); else the live result,
    which is stored: [{registered:false}] for a number that is not
    registered, the full record for one that is. *)
Theorem not_ready_lookup_outcomes ttl c phone w :
  fastify.matches_schema phone = true ->
  session_ready c = false ->
  (truthy (cached_value phone w) = true ->
     run ttl c (getCheck phone) w = (hit_reply (cached_value phone w), after_read phone w))
  /\ (truthy (cached_value phone w) = false ->
      upstream_queries (phoneNumberId phone) (trace (run ttl c (getCheck phone) w).2)
      = S (upstream_queries (phoneNumberId phone) (trace w))
      /\ (forall error,
            outcome (isRegisteredUser c (phoneNumberId phone)) = Rejected error ->
            (run ttl c (getCheck phone) w).1 = internal_error
            /\ stored_values (trace (run ttl c (getCheck phone) w).2)
               = stored_values (trace w))
      /\ (outcome (isRegisteredUser c (phoneNumberId phone)) = Resolved false ->
          (run ttl c (getCheck phone) w).1 = live_reply (JObj [("registered", JBool false)])
          /\ stored_values (trace (run ttl c (getCheck phone) w).2)
             = stored_values (trace w) ++ [JObj [("registered", JBool false)]])
      /\ (outcome (isRegisteredUser c (phoneNumberId phone)) = Resolved true ->
          (forall error,
             outcome (getContactById c (phoneNumberId phone)) = Rejected error ->
             (run ttl c (getCheck phone) w).1 = internal_error
             /\ stored_values (trace (run ttl c (getCheck phone) w).2)
                = stored_values (trace w))
          /\ (forall contact,
                outcome (getContactById c (phoneNumberId phone)) = Resolved contact ->
                (forall error,
                   outcome (getProfilePicUrl contact) = Rejected error ->
                   (run ttl c (getCheck phone) w).1 = internal_error
                   /\ stored_values (trace (run ttl c (getCheck phone) w).2)
                      = stored_values (trace w))
                /\ (forall pfpUrl,
                      outcome (getProfilePicUrl contact) = Resolved pfpUrl ->
                      (run ttl c (getCheck phone) w).1
                      = live_reply
                          (JObj [("registered", JBool true);
                                 ("name", js_or (pushname contact) JNull);
                                 ("number", js_or (number contact) JNull);
                                 ("profile_picture_url", js_or pfpUrl JNull);
                                 ("is_business", js_or (isBusiness contact) (JBool false))])
                      /\ stored_values (trace (run ttl c (getCheck phone) w).2)
                         = stored_values (trace w)
                           ++ [JObj [("registered", JBool true);
                                     ("name", js_or (pushname contact) JNull);
                                     ("number", js_or (number contact) JNull);
                                     ("profile_picture_url", js_or pfpUrl JNull);
                                     ("is_business",
                                      js_or (isBusiness contact) (JBool false))]])))).
Proof.
  intros Hvalid _. split.
  { intros Hhit. by apply run_getCheck_hit. }
  intros Hmiss.
  destruct (run_getCheck_served ttl c phone w Hvalid)
    as [Hhit|_ Hreg|contact pfpUrl _ Hreg Hcontact Hpfp|error _ Hreg
        |error _ Hreg Hcontact|contact error _ Hreg Hcontact Hpfp];
    [congruence|..]; cbn [fst snd];
    (split; [cbn; rewrite !upstream_queries_app; cbn; rewrite String.eqb_refl; lia|]).
  - split; [intros error' Hrej; congruence|]. split; [|congruence].
    intros _. split; [reflexivity|].
    cbn. rewrite !stored_values_app. cbn. by rewrite !app_nil_r.
  - split; [intros error' Hrej; congruence|]. split; [congruence|].
    intros _. split; [intros error' Hrej; congruence|].
    intros contact' Hcontact'. assert (contact' = contact) as -> by congruence.
    split; [intros error' Hrej; congruence|].
    intros pfpUrl' Hpfp'. assert (pfpUrl' = pfpUrl) as -> by congruence.
    split; [reflexivity|].
    cbn. rewrite !stored_values_app. cbn. by rewrite !app_nil_r.
  - split; [|split; congruence].
    intros error' _. split; [reflexivity|].
    cbn. rewrite !stored_values_app. cbn. by rewrite !app_nil_r.
  - split; [intros error' Hrej; congruence|]. split; [congruence|].
    intros _. split; [|intros contact' Hcontact'; congruence].
    intros error' _. split; [reflexivity|].
    cbn. rewrite !stored_values_app. cbn. by rewrite !app_nil_r.
  - split; [intros error' Hrej; congruence|]. split; [congruence|].
    intros _. split; [intros error' Hrej; congruence|].
    intros contact' Hcontact'. assert (contact' = contact) as -> by congruence.
    split; [|intros pfpUrl' Hpfp'; congruence].
    intros error' _. split; [reflexivity|].
    cbn. rewrite !stored_values_app. cbn. by rewrite !app_nil_r.
Qed.

Lemma not_ready_lookup_outcomes_witness :
  (upstream_queries (phoneNumberId "15551234567")
     (trace (run 600 pairing_client (getCheck "15551234567") (cold 0)).2)
   = S (upstream_queries (phoneNumberId "15551234567") (trace (cold 0)))
   /\ (run 600 pairing_client (getCheck "15551234567") (cold 0)).1 = internal_error)
  /\ (run 600 early_client (getCheck "15559999999") (cold 0)).1
     = live_reply (JObj [("registered", JBool true);
                         ("name", JStr "Alice");
                         ("number", JStr "15559999999");
                         ("profile_picture_url", JNull);
                         ("is_business", JBool false)]).
Proof.
  split.
  - destruct (not_ready_lookup_outcomes 600 pairing_client "15551234567" (cold 0)
                eq_refl eq_refl) as [_ Hmiss].
    destruct (Hmiss eq_refl) as (Hasked & Hrejected & _).
    split; [exact Hasked|].
    exact (proj1 (Hrejected (JStr "Evaluation failed") eq_refl)).
  - destruct (not_ready_lookup_outcomes 600 early_client "15559999999" (cold 0)
                eq_refl eq_refl) as [_ Hmiss].
    destruct (Hmiss eq_refl) as (_ & _ & _ & Hregistered).
    destruct (Hregistered eq_refl) as [_ Hcontact].
    destruct (Hcontact alice eq_refl) as [_ Hpicture].
    exact (proj1 (Hpicture JUndefined eq_refl)).
Defined.

(** C2, as the specification words it, fails for a client that still
    shows its pairing code: the request gets the generic 500 reply, the
    same a failed query gets at any other time. *)
Lemma not_ready_counterexample :
  fastify.matches_schema "15551234567" = true
  /\ session_ready pairing_client = false
  /\ (run 600 pairing_client (getCheck "15551234567") (cold 0)).1 = internal_error
  /\ statusCode (run 600 pairing_client (getCheck "15551234567") (cold 0)).1 = 500
  /\ prop "error" (payload (run 600 pairing_client (getCheck "15551234567") (cold 0)).1)
     = JStr "An internal server error occurred.".
Proof. repeat split. Qed.

(** ** Reading back what was stored *)

Lemma run_getCheck_fresh_entry ttl c phone w e :
  fastify.matches_schema phone = true ->
  data w !! cacheKey phone = Some e ->
  NodeCache.expired (clock w) e = false ->
  truthy (NodeCache.unwrap e) = true ->
  run ttl c (getCheck phone) w
  = (hit_reply (NodeCache.unwrap e), note (ECacheGet (cacheKey phone)) w).
Proof.
  intros Hvalid Hlook Hfresh Htruthy.
  pose proof (get_fresh _ _ _ _ Hlook Hfresh) as Hget.
  rewrite (run_getCheck_hit ttl c phone w Hvalid);
    unfold cached_value, after_read; rewrite Hget; [reflexivity|exact Htruthy].
Qed.

(** A live success leaves its record under the key, stamped with the
    time of the [set]. *)
Lemma live_success_entry ttl c phone w :
  fastify.matches_schema phone = true ->
  truthy (cached_value phone w) = false ->
  statusCode (run ttl c (getCheck phone) w).1 = 200 ->
  data (run ttl c (getCheck phone) w).2 !! cacheKey phone
  = Some (NodeCache.wrap ttl (clock (run ttl c (getCheck phone) w).2)
                         (served_result ttl c phone w))
  /\ has_boolean_registered (served_result ttl c phone w) = true.
Proof.
  intros Hvalid Hmiss Hok. unfold served_result.
  destruct (run_getCheck_served ttl c phone w Hvalid)
    as [Hhit|_ Hreg|contact pfpUrl _ Hreg Hcontact Hpfp|error _ Hreg
        |error _ Hreg Hcontact|contact error _ Hreg Hcontact Hpfp];
    try congruence; try discriminate Hok.
  - split; [apply lookup_insert_eq|reflexivity].
  - split; [apply lookup_insert_eq|reflexivity].
Qed.

Lemma fresh_entry_within_ttl ttl c phone w (dt : N) :
  fastify.matches_schema phone = true ->
  truthy (cached_value phone w) = false ->
  statusCode (run ttl c (getCheck phone) w).1 = 200 ->
  Z.of_N dt < ttl * 1000 ->
  forall e, data (run ttl c (getCheck phone) w).2 !! cacheKey phone = Some e ->
            within_ttl ttl (clock (run ttl c (getCheck phone) w).2 + Z.of_N dt) e.
Proof.
  intros Hvalid Hmiss Hok Hdt e Hlook.
  destruct (live_success_entry ttl c phone w Hvalid Hmiss Hok) as [Hentry _].
  rewrite Hentry in Hlook. injection Hlook as <-.
  unfold within_ttl, insertedAt, NodeCache.wrap. cbn [NodeCache.t].
  destruct (ttl =? 0); [by left|right; lia].
Qed.

(** C6.  A lookup succeeds; the same identifier is looked up again [dt]
    milliseconds later, while the entry under its key is inside its TTL
    window.  Whatever the client would answer by then, the second reply is
    the HIT reply: header [X-Cache-Status: HIT], source "cache", and as
    result the result of the first reply.  The second request only reads
    the cache: no call to the client, no change to the stored data. *)
Theorem second_lookup_within_ttl_is_hit ttl c1 c2 phone w (dt : N) :
  fastify.matches_schema phone = true ->
  statusCode (run ttl c1 (getCheck phone) w).1 = 200 ->
  (forall e, data (run ttl c1 (getCheck phone) w).2 !! cacheKey phone = Some e ->
             within_ttl ttl (clock (run ttl c1 (getCheck phone) w).2 + Z.of_N dt) e) ->
  run ttl c2 (getCheck phone) (elapse dt (run ttl c1 (getCheck phone) w).2)
  = (hit_reply (served_result ttl c1 phone w),
     note (ECacheGet (cacheKey phone)) (elapse dt (run ttl c1 (getCheck phone) w).2))
  /\ served_result ttl c2 phone (elapse dt (run ttl c1 (getCheck phone) w).2)
     = served_result ttl c1 phone w
  /\ headers (hit_reply (served_result ttl c1 phone w)) = [("X-Cache-Status", "HIT")]
  /\ prop "source" (payload (hit_reply (served_result ttl c1 phone w))) = JStr "cache".
Proof.
  intros Hvalid Hok Hwindow.
  assert (exists e,
    data (run ttl c1 (getCheck phone) w).2 !! cacheKey phone = Some e
    /\ NodeCache.unwrap e = served_result ttl c1 phone w
    /\ truthy (NodeCache.unwrap e) = true) as (e & Hlook & Hvalue & Htruthy).
  { destruct (truthy (cached_value phone w)) eqn:Hcached.
    - unfold served_result. rewrite (run_getCheck_hit ttl c1 phone w Hvalid Hcached).
      cbn [fst snd]. unfold cached_value, after_read in *.
      destruct (get_truthy _ _ _ Hcached) as (e & Hlook & _ & Hget).
      rewrite Hget in *. cbn [fst snd] in *. by exists e.
    - destruct (live_success_entry ttl c1 phone w Hvalid Hcached Hok) as [Hentry Hshape].
      eexists. split; [exact Hentry|].
      unfold NodeCache.unwrap, NodeCache.wrap. cbn [NodeCache.v].
      destruct (served_result ttl c1 phone w); try discriminate Hshape. by split. }
  pose proof (within_ttl_fresh _ _ _ (Hwindow e Hlook)) as Hfresh.
  assert (run ttl c2 (getCheck phone) (elapse dt (run ttl c1 (getCheck phone) w).2)
          = (hit_reply (served_result ttl c1 phone w),
             note (ECacheGet (cacheKey phone))
                  (elapse dt (run ttl c1 (getCheck phone) w).2))) as Hsecond.
  { rewrite <- Hvalue. by apply run_getCheck_fresh_entry. }
  split; [exact Hsecond|].
  split; [unfold served_result at 1; by rewrite Hsecond|].
  split; reflexivity.
Qed.

Lemma second_lookup_within_ttl_is_hit_witness :
  run 600 pairing_client (getCheck "15559999999")
      (elapse 1000 (run 600 serving_client (getCheck "15559999999") (cold 0)).2)
  = (hit_reply (served_result 600 serving_client "15559999999" (cold 0)),
     note (ECacheGet (cacheKey "15559999999"))
          (elapse 1000 (run 600 serving_client (getCheck "15559999999") (cold 0)).2)).
Proof.
  refine (proj1 (second_lookup_within_ttl_is_hit 600 serving_client pairing_client
                   "15559999999" (cold 0) 1000 eq_refl eq_refl _)).
  intros e Hlook. vm_compute in Hlook. injection Hlook as <-.
  right. vm_compute. reflexivity.
Defined.

(** ** One key per identifier *)

Lemma cacheKey_inj p1 p2 : cacheKey p1 = cacheKey p2 -> p1 = p2.
Proof. unfold cacheKey. cbn. intros Heq. by simplify_eq. Qed.

(** C9.  Two valid identifiers that differ have keys that differ, and the
    reply to one does not depend on what the cache holds under the key of
    the other: putting any entry there, or taking the entry away, leaves
    the reply as it was. *)
Theorem distinct_identifiers_distinct_keys p1 p2 :
  fastify.matches_schema p1 = true ->
  fastify.matches_schema p2 = true ->
  p1 <> p2 ->
  cacheKey p1 <> cacheKey p2
  /\ (forall ttl c w e,
        (run ttl c (getCheck p2) (with_data (<[cacheKey p1 := e]> (data w)) w)).1
        = (run ttl c (getCheck p2) w).1)
  /\ (forall ttl c w,
        (run ttl c (getCheck p2) (with_data (delete (cacheKey p1) (data w)) w)).1
        = (run ttl c (getCheck p2) w).1).
Proof.
  intros _ _ Hdiff.
  assert (cacheKey p1 <> cacheKey p2) as Hkeys.
  { intros Heq. apply Hdiff. by apply cacheKey_inj. }
  split; [exact Hkeys|].
  split; intros; apply reply_determined; unfold cached_value, NodeCache.get;
    cbn [data clock with_data].
  - rewrite lookup_insert_ne by exact Hkeys.
    destruct (data w !! cacheKey p2) as [e'|];
      [destruct (NodeCache.expired (clock w) e')|]; reflexivity.
  - rewrite lookup_delete_ne by exact Hkeys.
    destruct (data w !! cacheKey p2) as [e'|];
      [destruct (NodeCache.expired (clock w) e')|]; reflexivity.
Qed.

Lemma distinct_identifiers_distinct_keys_witness :
  cacheKey "15551234567" <> cacheKey "15559999999".
Proof.
  refine (proj1 (distinct_identifiers_distinct_keys "15551234567" "15559999999"
                   eq_refl eq_refl _)).
  discriminate.
Defined.

(** ** Shutdown *)

(** What [gracefulShutdown] adds to the trace. *)
Lemma gracefulShutdown_trace client server signal w :
  trace (gracefulShutdown client server signal w).1
  = trace w
    ++ [ELog "log" (newline +:+ "[SHUTDOWN] Received " +:+ signal
                    +:+ ". Closing application gracefully...")]
    ++ (if match server with Some srv => listening srv | None => false end
        then [EServerClose] else [])
    ++ (if match client with Some c => truthy (pupBrowser c) | None => false end
        then [EClientDestroy] else [])
    ++ [ECacheFlushAll; ELog "log" "[SHUTDOWN] Cleanup complete. Exiting.";
        EExit (gracefulShutdown client server signal w).2].
Proof.
  unfold gracefulShutdown. cbn [fst snd].
  destruct server as [[[|]]|], client as [c|]; try destruct (truthy (pupBrowser c));
    cbn; rewrite <- ?app_assoc; reflexivity.
Qed.

Lemma gracefulShutdown_data client server signal w :
  data (gracefulShutdown client server signal w).1 = ∅.
Proof. reflexivity. Qed.

Lemma gracefulShutdown_code client server signal w :
  (gracefulShutdown client server signal w).2
  = if String.eqb signal "Startup Failure" then 1 else 0.
Proof. reflexivity. Qed.

(** C8.  Shutdown with no client at all, or with a client whose browser
    handle is still undefined (or otherwise falsy), whatever signals the
    client has sent, whatever the server and the reason: [destroy] is not
    called, the cache is flushed and empty, and the last thing that
    happens is the exit of the process. *)
Theorem shutdown_before_browser_exists client server signal w :
  (client = None \/ exists c, client = Some c /\ truthy (pupBrowser c) = false) ->
  exists added,
    trace (gracefulShutdown client server signal w).1 = trace w ++ added
    /\ ~ In EClientDestroy added
    /\ In ECacheFlushAll added
    /\ List.last added ECacheFlushAll = EExit (gracefulShutdown client server signal w).2
    /\ data (gracefulShutdown client server signal w).1 = ∅.
Proof.
  intros Hnone.
  assert (match client with Some c => truthy (pupBrowser c) | None => false end = false)
    as Hguard.
  { destruct Hnone as [->|(c & -> & Hfalsy)]; [reflexivity|exact Hfalsy]. }
  eexists. split.
  { rewrite gracefulShutdown_trace, Hguard. reflexivity. }
  rewrite gracefulShutdown_code.
  destruct (match server with Some srv => listening srv | None => false end);
    repeat split; cbn; intuition discriminate.
Qed.

Lemma shutdown_before_browser_exists_witness :
  exists added,
    trace (gracefulShutdown (Some unlaunched_client) (Some {| listening := false |})
                            "SIGINT" (cold 0)).1 = trace (cold 0) ++ added
    /\ ~ In EClientDestroy added
    /\ In ECacheFlushAll added
    /\ List.last added ECacheFlushAll
       = EExit (gracefulShutdown (Some unlaunched_client) (Some {| listening := false |})
                                 "SIGINT" (cold 0)).2
    /\ data (gracefulShutdown (Some unlaunched_client) (Some {| listening := false |})
                              "SIGINT" (cold 0)).1 = ∅.
Proof.
  apply (shutdown_before_browser_exists (Some unlaunched_client)
           (Some {| listening := false |}) "SIGINT" (cold 0)).
  right. exists unlaunched_client. split; reflexivity.
Defined.

(** The guard is what keeps [destroy] away: with a browser handle the
    call is made. *)
Lemma shutdown_with_browser_destroys c server signal w :
  truthy (pupBrowser c) = true ->
  In EClientDestroy (trace (gracefulShutdown (Some c) server signal w).1).
Proof.
  intros Hbrowser. rewrite gracefulShutdown_trace, Hbrowser.
  rewrite !in_app_iff. right. right. right. left. by left.
Qed.

(** On the course where every awaited call that is made resolves,
    [Process.gracefulShutdown] is [gracefulShutdown]. *)
Lemma process_shutdown_resolving calls client server signal w :
  Process.calls_resolve calls client server = true ->
  Process.gracefulShutdown calls client server signal w
  = ((gracefulShutdown client server signal w).1,
     Process.Exited (gracefulShutdown client server signal w).2).
Proof.
  unfold Process.calls_resolve, Process.gracefulShutdown, gracefulShutdown.
  destruct calls as [[[]|e1] [[]|e2]], server as [[[|]]|], client as [cl|];
    try destruct (truthy (pupBrowser cl)); cbn; intros Hresolve;
    first [discriminate Hresolve | reflexivity].
Qed.

(** When one of them rejects the function stops there: the cache keeps
    what it holds and [process.exit] is not reached. *)
Lemma process_shutdown_rejecting calls client server signal w :
  Process.calls_resolve calls client server = false ->
  (exists error, (Process.gracefulShutdown calls client server signal w).2
                 = Process.Uncaught error)
  /\ data (Process.gracefulShutdown calls client server signal w).1 = data w
  /\ ~ In ECacheFlushAll
         (added_since (trace w) (trace (Process.gracefulShutdown calls client server signal w).1)).
Proof.
  unfold Process.calls_resolve, Process.gracefulShutdown, added_since.
  destruct calls as [[[]|e1] [[]|e2]], server as [[[|]]|], client as [cl|];
    try destruct (truthy (pupBrowser cl)); cbn; intros Hreject;
    first [discriminate Hreject
          | (split; [eauto|]); (split; [reflexivity|]);
            rewrite <- ?app_assoc, drop_app_length; cbn; intuition discriminate].
Qed.

Lemma process_shutdown_code calls client server signal w :
  Process.exit_code (Process.gracefulShutdown calls client server signal w).2
  = if Process.calls_resolve calls client server
    then (if String.eqb signal "Startup Failure" then 1 else 0)
    else 1.
Proof.
  unfold Process.calls_resolve, Process.gracefulShutdown.
  destruct calls as [[[]|e1] [[]|e2]], server as [[[|]]|], client as [cl|];
    try destruct (truthy (pupBrowser cl)); reflexivity.
Qed.

(** C3.  The exit code of the process, for each way the shutdown is
    reached and each way its awaited calls end.  After SIGINT or SIGTERM
    it is 0 when the calls made resolve, and 1 when one rejects (nothing
    catches the rejection).  After a failure inside the [try] block of
    [main] it is always 1.  After an authentication failure it is 0 when
    the calls made resolve: the reason passed is "Authentication Failure",
    and only "Startup Failure" is turned into 1. *)
Theorem shutdown_exit_codes :
  (forall calls c server sig w,
     Process.exit_code (Process.on_signal calls c server sig w).2
     = if Process.calls_resolve calls (Some c) (Some server) then 0 else 1)
  /\ (forall calls s w,
        option_map Process.exit_code (Process.main calls s w).2
        = match s with Started => None | _ => Some 1 end)
  /\ (forall calls c msg w,
        option_map Process.exit_code
                   (Process.on_client_event calls c (auth_failure msg) w).2
        = Some (if Process.calls_resolve calls (Some c) None then 0 else 1))
  /\ (Process.on_client_event clean_teardown pairing_client (auth_failure "LOGOUT")
                              (cold 0)).2
     = Some (Process.Exited 0).
Proof.
  split; [|split; [|split; [|reflexivity]]].
  - intros calls c server sig w. unfold Process.on_signal.
    rewrite process_shutdown_code. by destruct sig.
  - intros calls s w.
    destruct s as [|server|server client|server client|]; cbn [Process.main]; [..|reflexivity];
      unfold Process.main_catch;
      match goal with
      | |- context [Process.gracefulShutdown ?a ?b ?d ?e ?f] =>
          pose proof (process_shutdown_code a b d e f) as Hcode;
          destruct (Process.gracefulShutdown a b d e f) as [w' e'];
          cbn [snd option_map] in *; rewrite Hcode
      end;
      match goal with
      | |- context [Process.calls_resolve ?a ?b ?d] =>
          by destruct (Process.calls_resolve a b d)
      end.
  - intros calls c msg w. cbn [Process.on_client_event].
    match goal with
    | |- context [Process.gracefulShutdown ?a ?b ?d ?e ?f] =>
        pose proof (process_shutdown_code a b d e f) as Hcode;
        destruct (Process.gracefulShutdown a b d e f) as [w' e'];
        cbn [snd option_map] in *; rewrite Hcode
    end.
    reflexivity.
Qed.

(** Before the browser is launched the server does not listen yet, and
    then the shutdown reaches no awaited call: however [close] and
    [destroy] would end, it runs to its exit as [gracefulShutdown] does. *)
Lemma process_shutdown_before_browser calls client server signal w :
  (client = None \/ exists c, client = Some c /\ truthy (pupBrowser c) = false) ->
  (server = None \/ exists srv, server = Some srv /\ listening srv = false) ->
  Process.gracefulShutdown calls client server signal w
  = ((gracefulShutdown client server signal w).1,
     Process.Exited (gracefulShutdown client server signal w).2).
Proof.
  intros Hclient Hserver. apply process_shutdown_resolving.
  unfold Process.calls_resolve.
  destruct Hclient as [->|(c & -> & ->)], Hserver as [->|(srv & -> & ->)]; reflexivity.
Qed.

(** The [catch] block of [main] entered before the client exists: the same
    course for every way the awaited calls could end. *)
Lemma process_main_catch_before_client calls w :
  Process.main_catch calls None (Some {| listening := false |}) w
  = ((main_catch None (Some {| listening := false |}) w).1, Some (Process.Exited 1)).
Proof. reflexivity. Qed.

(** ** The event loop *)

(** Serving a request alone is running it from [await] to [await]: a
    parked request goes on when its promise is due. *)
Lemma advance_parked ttl c {A : Type} (p : Prog A) w n :
  awaits_at_most n p ->
  match advance ttl c p w with
  | (Finished a, w') => run ttl c p w = (a, w')
  | (Parked d p', w') =>
      run ttl c p w = run ttl c p' (later d w')
      /\ match n with O => False | S m => awaits_at_most m p' end
  end.
Proof.
  revert w. induction p as [a|key k IH|key value k IH|error msg k IH|id k IH|id k IH|ct k IH];
    intros w Hp; cbn [run advance awaits_at_most] in *.
  - reflexivity.
  - destruct (cache_get key w) as [value w']. apply IH, Hp.
  - apply IH, Hp.
  - apply IH, Hp.
  - destruct n as [|m]; [done|]. split; [|apply Hp].
    f_equal. unfold later, elapse. cbn. f_equal. lia.
  - destruct n as [|m]; [done|]. split; [|apply Hp].
    f_equal. unfold later, elapse. cbn. f_equal. lia.
  - destruct n as [|m]; [done|]. split; [|apply Hp].
    f_equal. unfold later, elapse. cbn. f_equal. lia.
Qed.

Lemma getCheck_awaits phone : awaits_at_most 3 (getCheck phone).
Proof.
  unfold getCheck. destruct (fastify.matches_schema phone); [|exact I].
  open_handler. cbn [awaits_at_most]. intros cached.
  destruct (truthy cached); [exact I|].
  cbn [awaits_at_most].
  intros [[|]|e1]; cbn [bind mbind mret Prog_bind Prog_ret awaits_at_most]; try exact I.
  intros [contact|e2]; cbn [bind mbind mret Prog_bind Prog_ret awaits_at_most]; [|exact I].
  intros [pfpUrl|e3]; cbn [bind mbind mret Prog_bind Prog_ret awaits_at_most]; exact I.
Qed.

Lemma take_task_alone id d p :
  take_task id [{| rid := id; due := d; rest := p |}]
  = Some ({| rid := id; due := d; rest := p |}, []).
Proof. cbn. by rewrite Nat.eqb_refl. Qed.

Lemma settle_nothing ttl c s id n :
  parked s = [] -> exec ttl c s (repeat (Settle id) n) = s.
Proof.
  intros Hnone. induction n as [|n IH]; [reflexivity|].
  unfold exec in *. cbn [repeat fold_left step]. rewrite Hnone. cbn [take_task]. exact IH.
Qed.

Lemma resume_alone ttl c id n p w sent next :
  awaits_at_most n p ->
  exec ttl c (resume ttl c id p w [] sent next) (repeat (Settle id) n)
  = {| world := (run ttl c p w).2; parked := [];
       replies := sent ++ [(id, (run ttl c p w).1)]; next_rid := next |}.
Proof.
  revert p w. induction n as [|n IH]; intros p w Hp.
  - pose proof (advance_parked ttl c p w 0 Hp) as Hadv. unfold resume.
    destruct (advance ttl c p w) as [[a|d p'] w']; [|by destruct Hadv].
    rewrite Hadv. reflexivity.
  - pose proof (advance_parked ttl c p w (S n) Hp) as Hadv. unfold resume.
    destruct (advance ttl c p w) as [[a|d p'] w'].
    + rewrite Hadv. by apply settle_nothing.
    + destruct Hadv as [Hrun Hp']. rewrite Hrun.
      unfold exec. cbn [repeat fold_left step parked app].
      rewrite take_task_alone. cbn [rest due world replies next_rid].
      by apply IH.
Qed.

(** With nothing else in flight the event loop gives a request the reply
    and the world of [run]. *)
Lemma lone_request ttl c s time phone :
  parked s = [] ->
  exec ttl c s (Arrive time phone :: repeat (Settle (next_rid s)) 3)
  = {| world := (run ttl c (getCheck phone) (later time (world s))).2;
       parked := [];
       replies := replies s
                  ++ [(next_rid s, (run ttl c (getCheck phone) (later time (world s))).1)];
       next_rid := S (next_rid s) |}.
Proof.
  intros Hnone. unfold exec. cbn [fold_left step]. rewrite Hnone.
  apply resume_alone, getCheck_awaits.
Qed.

Lemma stores_results_bind {A B : Type} (p : Prog A) (f : A -> Prog B) :
  stores_results p -> (forall a, stores_results (f a)) -> stores_results (bind p f).
Proof.
  intros Hp Hf.
  induction p as [a|key k IH|key value k IH|error msg k IH|id k IH|id k IH|ct k IH];
    cbn [bind stores_results] in *; try (intros x; apply IH, Hp); auto.
  destruct Hp as [Hvalue Hk]. split; [exact Hvalue|by apply IH].
Qed.

Lemma getCheck_stores_results phone : stores_results (getCheck phone).
Proof.
  unfold getCheck. destruct (fastify.matches_schema phone); [|exact I].
  open_handler. cbn [stores_results]. intros cached.
  destruct (truthy cached); [exact I|].
  cbn [stores_results]. intros [[|]|e1]; cbn [bind mbind mret Prog_bind Prog_ret stores_results].
  - intros [contact|e2]; cbn [bind mbind mret Prog_bind Prog_ret stores_results]; [|exact I].
    intros [pfpUrl|e3]; cbn [bind mbind mret Prog_bind Prog_ret stores_results]; [|exact I].
    split; [reflexivity|exact I].
  - split; [reflexivity|exact I].
  - exact I.
Qed.

Lemma holds_results_subseteq (d d' : gmap string NodeCache.Entry) :
  d' ⊆ d -> holds_results d -> holds_results d'.
Proof.
  unfold holds_results. intros Hsub Hall k e Hlook.
  apply (Hall k e). by eapply lookup_weaken.
Qed.

Lemma advance_keeps_results ttl c {A : Type} (p : Prog A) w :
  stores_results p ->
  holds_results (data w) ->
  Forall (fun value => has_boolean_registered value = true) (stored_values (trace w)) ->
  holds_results (data (advance ttl c p w).2)
  /\ Forall (fun value => has_boolean_registered value = true)
            (stored_values (trace (advance ttl c p w).2))
  /\ match (advance ttl c p w).1 with
     | Parked _ p' => stores_results p'
     | Finished _ => True
     end.
Proof.
  revert w. induction p as [a|key k IH|key value k IH|error msg k IH|id k IH|id k IH|ct k IH];
    intros w Hp Hdata Htrace; cbn [advance stores_results] in *.
  - by repeat split.
  - unfold cache_get.
    pose proof (get_subseteq (clock w) key (data w)) as Hsub.
    destruct (NodeCache.get (clock w) key (data w)) as [value d]. cbn [snd] in Hsub.
    apply IH; [apply Hp| |].
    + cbn. by eapply holds_results_subseteq.
    + cbn. rewrite stored_values_app. cbn. by rewrite app_nil_r.
  - destruct Hp as [Hvalue Hk]. apply IH; [exact Hk| |].
    + cbn. unfold NodeCache.set. by apply map_Forall_insert_2.
    + cbn. rewrite stored_values_app. apply Forall_app. split; [done|]. by constructor.
  - apply IH; [exact Hp|exact Hdata|].
    cbn. rewrite stored_values_app. cbn. by rewrite app_nil_r.
  - cbn. rewrite stored_values_app. cbn. rewrite app_nil_r. by repeat split.
  - cbn. rewrite stored_values_app. cbn. rewrite app_nil_r. by repeat split.
  - cbn. rewrite stored_values_app. cbn. rewrite app_nil_r. by repeat split.
Qed.

Lemma take_task_Forall (P : Task -> Prop) id tasks tk others :
  take_task id tasks = Some (tk, others) ->
  Forall P tasks -> P tk /\ Forall P others.
Proof.
  revert tk others. induction tasks as [|hd more IH]; intros tk others; [discriminate|].
  cbn [take_task]. intros Htake Hall. inversion Hall as [|? ? Hhd Hmore]; subst.
  destruct (Nat.eqb (rid hd) id).
  - injection Htake as <- <-. by split.
  - destruct (take_task id more) as [[found rest']|]; [|discriminate].
    injection Htake as <- <-.
    destruct (IH found rest' eq_refl Hmore) as [Hfound Hrest]. split; [done|by constructor].
Qed.

Lemma resume_sound ttl c id p w tasks sent next :
  stores_results p ->
  holds_results (data w) ->
  Forall (fun value => has_boolean_registered value = true) (stored_values (trace w)) ->
  Forall (fun tk => stores_results (rest tk)) tasks ->
  sound (resume ttl c id p w tasks sent next).
Proof.
  intros Hp Hdata Htrace Htasks.
  destruct (advance_keeps_results ttl c p w Hp Hdata Htrace) as (Hd & Ht & Hrest).
  unfold resume. destruct (advance ttl c p w) as [[r|d p'] w']; cbn [fst snd] in *.
  - by repeat split.
  - repeat split; [done|done|]. cbn. apply Forall_app. split; [done|]. by repeat constructor.
Qed.

Lemma step_sound ttl c s i : sound s -> sound (step ttl c s i).
Proof.
  intros (Hdata & Htrace & Htasks). destruct i as [time phone|id|time]; cbn [step].
  - apply resume_sound; [apply getCheck_stores_results|done|done|done].
  - destruct (take_task id (parked s)) as [[tk others]|] eqn:Htake; [|by repeat split].
    destruct (take_task_Forall _ _ _ _ _ Htake Htasks) as [Htk Hothers].
    by apply resume_sound.
  - repeat split; [|done|done]. cbn.
    eapply holds_results_subseteq; [|exact Hdata]. apply map_filter_subseteq.
Qed.

Lemma exec_sound ttl c s inputs : sound s -> sound (exec ttl c s inputs).
Proof.
  unfold exec. revert s. induction inputs as [|i inputs IH]; intros s Hs; [exact Hs|].
  cbn [fold_left]. apply IH. by apply step_sound.
Qed.

Lemma boot_sound now : sound (boot now).
Proof.
  repeat split; cbn; [|constructor|constructor].
  unfold holds_results. apply map_Forall_empty.
Qed.

Lemma advance_getCheck_hit ttl c phone w :
  fastify.matches_schema phone = true ->
  truthy (cached_value phone w) = true ->
  advance ttl c (getCheck phone) w
  = (Finished (hit_reply (cached_value phone w)), after_read phone w).
Proof.
  intros Hvalid Hhit. unfold getCheck. rewrite Hvalid. open_handler.
  cbn [advance]. unfold cache_get, cached_value, after_read in *.
  destruct (NodeCache.get (clock w) (cacheKey phone) (data w)) as [cached d].
  cbn [fst snd] in *. rewrite Hhit. reflexivity.
Qed.

(** A request that finds nothing under its key asks the client, and
    waits. *)
Lemma arrive_miss ttl c phone s time :
  fastify.matches_schema phone = true ->
  data (world s) !! cacheKey phone = None ->
  trace (world (step ttl c s (Arrive time phone)))
  = trace (world s)
    ++ [ECacheGet (cacheKey phone); EUpstream (CallIsRegisteredUser (phoneNumberId phone))]
  /\ data (world (step ttl c s (Arrive time phone))) = data (world s)
  /\ replies (step ttl c s (Arrive time phone)) = replies s
  /\ exists tk, parked (step ttl c s (Arrive time phone)) = parked s ++ [tk]
                /\ rid tk = next_rid s
                /\ due tk = Z.max (clock (world s)) time
                           + Z.of_N (latency (isRegisteredUser c (phoneNumberId phone))).
Proof.
  intros Hvalid Hnone. cbn [step]. unfold resume, getCheck. rewrite Hvalid. open_handler.
  cbn [advance]. unfold cache_get, NodeCache.get. cbn [later at_time data clock].
  rewrite Hnone. cbn [truthy advance world parked replies].
  repeat split.
  - cbn. by rewrite <- app_assoc.
  - eexists. split; [reflexivity|]. split; reflexivity.
Qed.

(** ** Requests for one number in flight together *)

(** C1 (amended).  The handler has no table of queries in flight.  When
    requests for one valid identifier arrive one after the other, none
    settled yet and nothing cached under its key, each of them calls
    [isRegisteredUser] for itself and is parked on its own promise: after
    [n] arrivals [n] more calls were made, [n] more requests wait, no reply
    is out and the cache is as it was. *)
Theorem concurrent_lookups_each_query_upstream ttl c phone s times :
  fastify.matches_schema phone = true ->
  data (world s) !! cacheKey phone = None ->
  upstream_queries (phoneNumberId phone)
                   (trace (world (exec ttl c s (arrivals phone times))))
  = (upstream_queries (phoneNumberId phone) (trace (world s)) + length times)%nat
  /\ length (parked (exec ttl c s (arrivals phone times)))
     = (length (parked s) + length times)%nat
  /\ replies (exec ttl c s (arrivals phone times)) = replies s
  /\ data (world (exec ttl c s (arrivals phone times))) = data (world s).
Proof.
  intros Hvalid. revert s.
  induction times as [|time times IH]; intros s Hnone.
  { cbn. repeat split; lia. }
  destruct (arrive_miss ttl c phone s time Hvalid Hnone)
    as (Htrace & Hdata & Hreplies & tk & Hparked & _).
  unfold arrivals, exec in *. cbn [map fold_left].
  destruct (IH (step ttl c s (Arrive time phone))) as (Hq & Hp & Hr & Hd).
  { by rewrite Hdata. }
  rewrite Hq, Hp, Hr, Hd, Htrace, Hparked, Hreplies, Hdata.
  rewrite upstream_queries_app, length_app. cbn [upstream_queries length].
  rewrite String.eqb_refl. repeat split; lia.
Qed.

Lemma concurrent_lookups_each_query_upstream_witness :
  upstream_queries (phoneNumberId "15551234567") (trace (world two_in_flight))
  = (upstream_queries (phoneNumberId "15551234567") (trace (world (boot 0))) + 2)%nat.
Proof.
  exact (proj1 (concurrent_lookups_each_query_upstream 600 serving_client "15551234567"
                  (boot 0) [1; 2] eq_refl eq_refl)).
Defined.

(** C1, as the specification words it, fails for two requests: the second
    arrives while the first is parked, both are in flight, and the client
    was asked twice.  Once all promises have settled both have their reply,
    each a live one, and the cache was written twice. *)
Lemma coalescing_counterexample :
  fastify.matches_schema "15551234567" = true
  /\ replies two_in_flight = []
  /\ map rid (parked two_in_flight) = [0%nat; 1%nat]
  /\ upstream_queries "15551234567@c.us" (trace (world two_in_flight)) = 2%nat
  /\ upstream_queries "15551234567@c.us" (trace (world two_in_flight)) <> 1%nat
  /\ map (fun r => (r.1, headers r.2)) (replies two_answered)
     = [(0%nat, [("X-Cache-Status", "MISS")]); (1%nat, [("X-Cache-Status", "MISS")])]
  /\ length (stored_values (trace (world two_answered))) = 2%nat
  /\ upstream_queries "15551234567@c.us" (trace (world two_answered)) = 2%nat.
Proof. vm_compute. repeat split; discriminate. Qed.

(** ** What the cache holds *)

(** C10.  In every state the event loop can reach from the start of the
    process, whatever arrives and in whatever order promises settle:
    every value a handler stored is an object with a boolean [registered]
    property, and so is every value in the cache.  An entry found under
    the key of a valid identifier and not expired when a request for it
    arrives is therefore truthy, and the request is answered at once with
    the HIT reply carrying that value. *)
Theorem stored_entries_always_hit ttl c now inputs s phone e time :
  s = exec ttl c (boot now) inputs ->
  fastify.matches_schema phone = true ->
  data (world s) !! cacheKey phone = Some e ->
  NodeCache.expired (Z.max (clock (world s)) time) e = false ->
  Forall (fun value => has_boolean_registered value = true)
         (stored_values (trace (world s)))
  /\ holds_results (data (world s))
  /\ (exists fields b, NodeCache.v e = JObj fields
                       /\ lookup_field "registered" fields = JBool b)
  /\ truthy (cached_value phone (later time (world s))) = true
  /\ replies (step ttl c s (Arrive time phone))
     = replies s ++ [(next_rid s, hit_reply (NodeCache.v e))]
  /\ parked (step ttl c s (Arrive time phone)) = parked s
  /\ headers (hit_reply (NodeCache.v e)) = [("X-Cache-Status", "HIT")].
Proof.
  intros -> Hvalid Hlook Hfresh.
  destruct (exec_sound ttl c (boot now) inputs (boot_sound now)) as (Hdata & Htrace & _).
  set (s := exec ttl c (boot now) inputs) in *.
  pose proof (Hdata _ _ Hlook) as Hshape. cbn beta in Hshape.
  assert (exists fields b, NodeCache.v e = JObj fields
                           /\ lookup_field "registered" fields = JBool b)
    as (fields & b & Hobj & Hreg).
  { unfold has_boolean_registered in Hshape.
    destruct (NodeCache.v e) as [| | | | |fields]; try discriminate Hshape.
    destruct (lookup_field "registered" fields) as [| |b| | |] eqn:Hreg;
      try discriminate Hshape.
    by exists fields, b. }
  assert (NodeCache.unwrap e = NodeCache.v e) as Hunwrap.
  { unfold NodeCache.unwrap. by rewrite Hobj. }
  assert (cached_value phone (later time (world s)) = NodeCache.v e) as Hcached.
  { unfold cached_value. cbn [later at_time data clock].
    rewrite (get_fresh _ _ _ _ Hlook Hfresh). exact Hunwrap. }
  assert (truthy (cached_value phone (later time (world s))) = true) as Htruthy.
  { rewrite Hcached, Hobj. reflexivity. }
  split; [exact Htrace|]. split; [exact Hdata|].
  split; [by exists fields, b|]. split; [exact Htruthy|].
  cbn [step]. unfold resume.
  rewrite (advance_getCheck_hit ttl c phone _ Hvalid Htruthy), Hcached.
  repeat split.
Qed.

Lemma stored_entries_always_hit_witness :
  replies (step 600 serving_client one_answered (Arrive 100 "15559999999"))
  = replies one_answered
    ++ [(next_rid one_answered, hit_reply (NodeCache.v alice_entry))].
Proof.
  refine (proj1 (proj2 (proj2 (proj2 (proj2
    (stored_entries_always_hit 600 serving_client 0
       [Arrive 1 "15559999999"; Settle 0; Settle 0; Settle 0]
       one_answered "15559999999" alice_entry 100 eq_refl eq_refl _ _)))))).
  - vm_compute. reflexivity.
  - vm_compute. reflexivity.
Defined.

(** * Further properties *)

(** ** The search for the browser *)

Lemma find_usable_some existsSync paths p :
  find (usable existsSync) paths = Some p ->
  exists s, p = Some s /\ s <> "" /\ existsSync s = true /\ In (Some s) paths.
Proof.
  intros Hfind. apply find_some in Hfind as [Hin Husable].
  destruct p as [s|]; [|discriminate].
  unfold usable in Husable. apply andb_true_iff in Husable as [Hne Hex].
  exists s. repeat split; [|done|done].
  intros ->. discriminate.
Qed.

(** X1.  A path the search returns is one of the candidates of the
    platform, is not the empty string, and exists. *)
Theorem chrome_path_found_exists join existsSync env platform p :
  getChromeExecutablePath join existsSync env platform = Normal (Some p) ->
  existsSync p = true
  /\ p <> ""
  /\ exists paths, chrome_candidates join env platform = Normal paths /\ In (Some p) paths.
Proof.
  unfold getChromeExecutablePath.
  destruct (chrome_candidates join env platform) as [paths|e]; [|discriminate].
  destruct (find (usable existsSync) paths) as [found|] eqn:Hfind; [|discriminate].
  intros Hres. injection Hres as ->.
  destruct (find_usable_some _ _ _ Hfind) as (s & Hs & Hne & Hex & Hin).
  injection Hs as <-. repeat split; [done|done|]. by exists paths.
Qed.

Lemma chrome_path_found_exists_witness :
  linux_disk "/usr/bin/google-chrome" = true
  /\ "/usr/bin/google-chrome" <> ""
  /\ exists paths, chrome_candidates posix_join linux_env "linux" = Normal paths
                   /\ In (Some "/usr/bin/google-chrome") paths.
Proof.
  apply (chrome_path_found_exists posix_join linux_disk linux_env "linux"
           "/usr/bin/google-chrome").
  reflexivity.
Defined.

(** X2.  [CHROME_PATH] comes first: when it names a file that exists, and
    the list of candidates can be built at all (on win32 both
    [ProgramFiles] variables are set), it is the path returned, whatever
    else is installed. *)
Theorem chrome_path_override_wins join existsSync env platform p :
  env "CHROME_PATH" = Some p ->
  p <> "" ->
  existsSync p = true ->
  (platform = "win32" ->
   is_Some (env "ProgramFiles(x86)") /\ is_Some (env "ProgramFiles")) ->
  getChromeExecutablePath join existsSync env platform = Normal (Some p).
Proof.
  intros Hset Hne Hex Hwin.
  assert (usable existsSync (Some p) = true) as Husable.
  { unfold usable. rewrite Hex, andb_true_r. apply negb_true_iff.
    by apply String.eqb_neq. }
  unfold getChromeExecutablePath, chrome_candidates.
  destruct (String.eqb platform "win32") eqn:Hplatform.
  - apply String.eqb_eq in Hplatform.
    destruct (Hwin Hplatform) as [[x86 Hx86] [pf Hpf]].
    unfold path_join. rewrite Hx86, Hpf, Hset. cbn [all_strings find].
    by rewrite Husable.
  - destruct (String.eqb platform "darwin"); rewrite Hset; cbn [find]; by rewrite Husable.
Qed.

Lemma chrome_path_override_wins_witness :
  getChromeExecutablePath posix_join override_disk override_env "linux"
  = Normal (Some "/opt/chrome/chrome").
Proof.
  apply (chrome_path_override_wins posix_join override_disk override_env "linux"
           "/opt/chrome/chrome").
  - reflexivity.
  - discriminate.
  - reflexivity.
  - discriminate.
Defined.

(** X3.  On win32 the candidates are built with [path.join] on
    [ProgramFiles(x86)] and [ProgramFiles] before anything is looked up:
    when one of the two is not set the function throws, even with a
    [CHROME_PATH] that names an existing browser. *)
Theorem chrome_path_win32_needs_program_files join existsSync env :
  env "ProgramFiles(x86)" = None \/ env "ProgramFiles" = None ->
  getChromeExecutablePath join existsSync env "win32" = Throw "ERR_INVALID_ARG_TYPE".
Proof.
  intros Hunset. unfold getChromeExecutablePath, chrome_candidates, path_join.
  cbn [String.eqb Ascii.eqb Bool.eqb].
  destruct (env "ProgramFiles(x86)") as [x86|]; [|reflexivity].
  destruct Hunset as [Hx86|Hpf]; [discriminate|].
  rewrite Hpf. reflexivity.
Qed.

Lemma chrome_path_win32_needs_program_files_witness :
  getChromeExecutablePath win32_join windows32_disk windows32_env "win32"
  = Throw "ERR_INVALID_ARG_TYPE".
Proof.
  apply (chrome_path_win32_needs_program_files win32_join windows32_disk windows32_env).
  left. reflexivity.
Defined.

(** X4.  Every platform other than win32 and darwin is searched like
    Linux, and the search never throws there.  Without a usable
    [CHROME_PATH] (not set, empty, or naming nothing that exists) the
    result is the first of the three fixed paths that exists, in the order
    stable, plain, chromium, and [undefined] when none does. *)
Theorem chrome_path_linux_fallback join existsSync env platform :
  platform <> "win32" ->
  platform <> "darwin" ->
  usable existsSync (env "CHROME_PATH") = false ->
  getChromeExecutablePath join existsSync env platform
  = Normal (find existsSync ["/usr/bin/google-chrome-stable";
                             "/usr/bin/google-chrome";
                             "/usr/bin/chromium-browser"]).
Proof.
  intros Hwin Hmac Hnone.
  apply String.eqb_neq in Hwin, Hmac.
  unfold getChromeExecutablePath, chrome_candidates. rewrite Hwin, Hmac.
  cbn [find]. rewrite Hnone. unfold usable. cbn [String.eqb negb andb].
  destruct (existsSync "/usr/bin/google-chrome-stable"); [reflexivity|].
  destruct (existsSync "/usr/bin/google-chrome"); [reflexivity|].
  destruct (existsSync "/usr/bin/chromium-browser"); reflexivity.
Qed.

Lemma chrome_path_linux_fallback_witness :
  getChromeExecutablePath posix_join linux_disk linux_env "freebsd"
  = Normal (find linux_disk ["/usr/bin/google-chrome-stable";
                             "/usr/bin/google-chrome";
                             "/usr/bin/chromium-browser"]).
Proof.
  apply (chrome_path_linux_fallback posix_join linux_disk linux_env "freebsd").
  - discriminate.
  - discriminate.
  - reflexivity.
Defined.

(** X5.  On win32 with one of the [ProgramFiles] variables missing the
    process cannot start: [initializeWhatsAppClient] throws after its log
    line, [main] goes to its [catch] block with no client, and the
    shutdown flushes the cache and exits with code 1 without closing the
    server (it does not listen yet) or destroying a client. *)
Theorem startup_fails_without_program_files join existsSync env w :
  env "ProgramFiles(x86)" = None \/ env "ProgramFiles" = None ->
  exists w',
    main_to_client join existsSync env "win32" w = inl (w', Some 1)
    /\ data w' = ∅
    /\ trace w'
       = trace w
         ++ [ELog "info" "Initializing WhatsApp client...";
             ELog "error" "[FATAL] A critical error occurred during startup:";
             ELog "log" (newline +:+ "[SHUTDOWN] Received Startup Failure"
                         +:+ ". Closing application gracefully...");
             ECacheFlushAll;
             ELog "log" "[SHUTDOWN] Cleanup complete. Exiting.";
             EExit 1].
Proof.
  intros Hunset. unfold main_to_client, initializeWhatsAppClient.
  rewrite (chrome_path_win32_needs_program_files join existsSync env Hunset).
  eexists. split; [reflexivity|]. split; [reflexivity|].
  cbn. rewrite <- !app_assoc. reflexivity.
Qed.

Lemma startup_fails_without_program_files_witness :
  exists w',
    main_to_client win32_join windows32_disk windows32_env "win32" (cold 0)
    = inl (w', Some 1)
    /\ data w' = ∅
    /\ trace w'
       = trace (cold 0)
         ++ [ELog "info" "Initializing WhatsApp client...";
             ELog "error" "[FATAL] A critical error occurred during startup:";
             ELog "log" (newline +:+ "[SHUTDOWN] Received Startup Failure"
                         +:+ ". Closing application gracefully...");
             ECacheFlushAll;
             ELog "log" "[SHUTDOWN] Cleanup complete. Exiting.";
             EExit 1].
Proof.
  apply (startup_fails_without_program_files win32_join windows32_disk windows32_env
           (cold 0)).
  left. reflexivity.
Defined.

(** ** The handlers of the client's signals *)

(** X6.  Of the six signals only [auth_failure] ends the process.  The
    handlers of the other five show something (log lines, the pairing
    code) and do nothing else: the process goes on, the cache and the
    clock are untouched; [disconnected] in particular starts neither a
    reconnection nor a shutdown. *)
Theorem only_auth_failure_ends_process c ev w :
  (forall msg, ev <> auth_failure msg) ->
  (on_client_event c ev w).2 = None
  /\ data (on_client_event c ev w).1 = data w
  /\ clock (on_client_event c ev w).1 = clock w
  /\ exists shown, trace (on_client_event c ev w).1 = trace w ++ shown
                   /\ forallb is_display shown = true.
Proof.
  intros Hother.
  destruct ev as [code|percent message| | |msg|reason]; cbn;
    try (repeat split; eexists; split;
         [rewrite <- ?app_assoc; reflexivity|reflexivity]).
  by destruct (Hother msg).
Qed.

Lemma only_auth_failure_ends_process_witness :
  (on_client_event serving_client (disconnected "NAVIGATION") (cold 0)).2 = None
  /\ data (on_client_event serving_client (disconnected "NAVIGATION") (cold 0)).1
     = data (cold 0)
  /\ clock (on_client_event serving_client (disconnected "NAVIGATION") (cold 0)).1
     = clock (cold 0)
  /\ exists shown,
       trace (on_client_event serving_client (disconnected "NAVIGATION") (cold 0)).1
       = trace (cold 0) ++ shown
       /\ forallb is_display shown = true.
Proof.
  apply (only_auth_failure_ends_process serving_client (disconnected "NAVIGATION") (cold 0)).
  discriminate.
Defined.

(** X7.  An authentication failure shuts down with [null] for the server:
    the HTTP server is never closed on this path, listening or not.  The
    client is destroyed exactly when its browser handle is there.  When
    that call resolves (or is not made) the cache is flushed and the
    process exits with code 0; when it rejects the cache keeps what it
    holds, [process.exit] is not reached and the process ends with
    code 1. *)
Theorem auth_failure_leaves_server_open calls c msg w :
  trace (Process.on_client_event calls c (auth_failure msg) w).1
  = trace w
    ++ [ELog "error" ("Authentication failed: " +:+ msg);
        ELog "log" (newline +:+ "[SHUTDOWN] Received Authentication Failure"
                    +:+ ". Closing application gracefully...")]
    ++ (if truthy (pupBrowser c) then [EClientDestroy] else [])
    ++ (if Process.calls_resolve calls (Some c) None
        then [ECacheFlushAll; ELog "log" "[SHUTDOWN] Cleanup complete. Exiting."; EExit 0]
        else [])
  /\ ~ In EServerClose
         (added_since (trace w)
                      (trace (Process.on_client_event calls c (auth_failure msg) w).1))
  /\ data (Process.on_client_event calls c (auth_failure msg) w).1
     = (if Process.calls_resolve calls (Some c) None then ∅ else data w)
  /\ option_map Process.exit_code (Process.on_client_event calls c (auth_failure msg) w).2
     = Some (if Process.calls_resolve calls (Some c) None then 0 else 1).
Proof.
  unfold Process.calls_resolve, Process.on_client_event, Process.gracefulShutdown,
    added_since.
  destruct calls as [closed [[]|e2]]; destruct (truthy (pupBrowser c)); cbn;
    (split; [rewrite <- ?app_assoc; reflexivity|]);
    (split; [|split; reflexivity]);
    rewrite <- ?app_assoc, drop_app_length; cbn; intuition discriminate.
Qed.

(** X8.  A signal that finds the server listening and the browser
    launched first closes the server, then destroys the client, then
    flushes the cache, and exits with code 0 last.  Each step is reached
    only when the awaited call before it resolved: when [close] or
    [destroy] rejects, nothing after it happens, the cache keeps what it
    holds and the process ends with code 1. *)
Theorem signal_shutdown_order calls c server sig w :
  listening server = true ->
  truthy (pupBrowser c) = true ->
  trace (Process.on_signal calls c server sig w).1
  = trace w
    ++ [ELog "log" (newline +:+ "[SHUTDOWN] Received " +:+ signal_name sig
                    +:+ ". Closing application gracefully...");
        EServerClose]
    ++ (if Process.is_resolved (Process.close_ends calls)
        then EClientDestroy
             :: (if Process.is_resolved (Process.destroy_ends calls)
                 then [ECacheFlushAll; ELog "log" "[SHUTDOWN] Cleanup complete. Exiting.";
                       EExit 0]
                 else [])
        else [])
  /\ data (Process.on_signal calls c server sig w).1
     = (if Process.is_resolved (Process.close_ends calls)
           && Process.is_resolved (Process.destroy_ends calls)
        then ∅ else data w)
  /\ Process.exit_code (Process.on_signal calls c server sig w).2
     = (if Process.is_resolved (Process.close_ends calls)
           && Process.is_resolved (Process.destroy_ends calls)
        then 0 else 1).
Proof.
  intros Hlistening Hbrowser.
  unfold Process.on_signal, Process.gracefulShutdown. rewrite Hlistening, Hbrowser.
  destruct calls as [[[]|e1] [[]|e2]], sig; cbn;
    (split; [rewrite <- ?app_assoc; reflexivity|split; reflexivity]).
Qed.

Lemma signal_shutdown_order_witness :
  trace (Process.on_signal crashed_browser serving_client listening_server SIGTERM
                           (cold 0)).1
  = trace (cold 0)
    ++ [ELog "log" (newline +:+ "[SHUTDOWN] Received " +:+ signal_name SIGTERM
                    +:+ ". Closing application gracefully...");
        EServerClose]
    ++ (if Process.is_resolved (Process.close_ends crashed_browser)
        then EClientDestroy
             :: (if Process.is_resolved (Process.destroy_ends crashed_browser)
                 then [ECacheFlushAll; ELog "log" "[SHUTDOWN] Cleanup complete. Exiting.";
                       EExit 0]
                 else [])
        else [])
  /\ data (Process.on_signal crashed_browser serving_client listening_server SIGTERM
                             (cold 0)).1
     = (if Process.is_resolved (Process.close_ends crashed_browser)
           && Process.is_resolved (Process.destroy_ends crashed_browser)
        then ∅ else data (cold 0))
  /\ Process.exit_code (Process.on_signal crashed_browser serving_client listening_server
                                          SIGTERM (cold 0)).2
     = (if Process.is_resolved (Process.close_ends crashed_browser)
           && Process.is_resolved (Process.destroy_ends crashed_browser)
        then 0 else 1).
Proof.
  apply (signal_shutdown_order crashed_browser serving_client listening_server SIGTERM
           (cold 0)); reflexivity.
Defined.

(** ** More on the handler *)

Lemma upstream_calls_app tr tr' :
  upstream_calls (tr ++ tr') = upstream_calls tr ++ upstream_calls tr'.
Proof. unfold upstream_calls. apply flat_map_app. Qed.

Lemma get_miss_later now now' key (d : gmap string NodeCache.Entry) :
  now <= now' ->
  truthy (NodeCache.get now key d).1 = false ->
  truthy (NodeCache.get now' key d).1 = false.
Proof.
  intros Hle. unfold NodeCache.get.
  destruct (d !! key) as [e|]; [|done].
  destruct (NodeCache.expired now e) eqn:Hexp.
  - by rewrite (expired_mono now now' e Hle Hexp).
  - destruct (NodeCache.expired now' e); done.
Qed.

(** What every miss has in common. *)
Lemma run_miss_facts ttl c phone w :
  fastify.matches_schema phone = true ->
  truthy (cached_value phone w) = false ->
  headers (run ttl c (getCheck phone) w).1 = [("X-Cache-Status", "MISS")]
  /\ upstream_queries (phoneNumberId phone) (trace (run ttl c (getCheck phone) w).2)
     = S (upstream_queries (phoneNumberId phone) (trace w))
  /\ clock w <= clock (run ttl c (getCheck phone) w).2
  /\ (statusCode (run ttl c (getCheck phone) w).1 = 200
      /\ data (run ttl c (getCheck phone) w).2
         = <[cacheKey phone := NodeCache.wrap ttl (clock (run ttl c (getCheck phone) w).2)
                                               (served_result ttl c phone w)]>
             (NodeCache.get (clock w) (cacheKey phone) (data w)).2
      \/ statusCode (run ttl c (getCheck phone) w).1 = 500
         /\ data (run ttl c (getCheck phone) w).2
            = (NodeCache.get (clock w) (cacheKey phone) (data w)).2).
Proof.
  intros Hvalid Hmiss. unfold served_result.
  destruct (run_getCheck_served ttl c phone w Hvalid)
    as [Hhit|_ Hreg|contact pfpUrl _ Hreg Hcontact Hpfp|error _ Hreg
        |error _ Hreg Hcontact|contact error _ Hreg Hcontact Hpfp];
    [congruence|..]; cbn [fst snd];
    (split; [reflexivity|]);
    (split; [cbn; rewrite !upstream_queries_app; cbn; rewrite String.eqb_refl; lia|]);
    (split; [cbn; lia|]);
    first [left; split; reflexivity | right; split; reflexivity].
Qed.

(** X9.  A number the client reports as not registered costs one call to
    the client and no more: the contact is never fetched.  The record is
    [{registered:false}] with no other property, it is sent as a live
    result and stored under the key of the number. *)
Theorem unregistered_lookup ttl c phone w :
  fastify.matches_schema phone = true ->
  truthy (cached_value phone w) = false ->
  outcome (isRegisteredUser c (phoneNumberId phone)) = Resolved false ->
  (run ttl c (getCheck phone) w).1 = live_reply (JObj [("registered", JBool false)])
  /\ keys (served_result ttl c phone w) = ["registered"]
  /\ upstream_calls (trace (run ttl c (getCheck phone) w).2)
     = upstream_calls (trace w) ++ [CallIsRegisteredUser (phoneNumberId phone)]
  /\ data (run ttl c (getCheck phone) w).2 !! cacheKey phone
     = Some (NodeCache.wrap ttl
               (clock w + Z.of_N (latency (isRegisteredUser c (phoneNumberId phone))))
               (JObj [("registered", JBool false)])).
Proof.
  intros Hvalid Hmiss Hunreg. unfold served_result.
  destruct (run_getCheck_served ttl c phone w Hvalid)
    as [Hhit|_ Hreg|contact pfpUrl _ Hreg Hcontact Hpfp|error _ Hreg
        |error _ Hreg Hcontact|contact error _ Hreg Hcontact Hpfp];
    try congruence.
  cbn [fst snd]. split; [reflexivity|]. split; [reflexivity|]. split.
  - cbn. rewrite !upstream_calls_app. cbn. by rewrite !app_nil_r.
  - apply lookup_insert_eq.
Qed.

(** X10.  The calls one request makes to the client are an initial part
    of: [isRegisteredUser], [getContactById], [getProfilePicUrl], in this
    order and each at most once; a request answered from the cache makes
    none.  The cache is written at most once, and exactly when the reply
    is a live success; what is written is the result sent. *)
Theorem lookup_call_discipline ttl c phone w :
  fastify.matches_schema phone = true ->
  exists calls more,
    upstream_calls (trace (run ttl c (getCheck phone) w).2)
    = upstream_calls (trace w) ++ calls
    /\ [CallIsRegisteredUser (phoneNumberId phone);
        CallGetContactById (phoneNumberId phone);
        CallGetProfilePicUrl] = calls ++ more
    /\ (truthy (cached_value phone w) = true -> calls = [])
    /\ stored_values (trace (run ttl c (getCheck phone) w).2)
       = stored_values (trace w)
         ++ (if (statusCode (run ttl c (getCheck phone) w).1 =? 200)
                && negb (truthy (cached_value phone w))
             then [served_result ttl c phone w] else []).
Proof.
  intros Hvalid. unfold served_result.
  destruct (run_getCheck_served ttl c phone w Hvalid)
    as [Hhit|Hmiss Hreg|contact pfpUrl Hmiss Hreg Hcontact Hpfp|error Hmiss Hreg
        |error Hmiss Hreg Hcontact|contact error Hmiss Hreg Hcontact Hpfp];
    cbn [fst snd]; rewrite ?Hhit, ?Hmiss; cbn [statusCode hit_reply live_reply
      internal_error Z.eqb Pos.eqb andb negb].
  - exists [], [CallIsRegisteredUser (phoneNumberId phone);
                CallGetContactById (phoneNumberId phone); CallGetProfilePicUrl].
    repeat split.
    + cbn. rewrite !upstream_calls_app. cbn. by rewrite !app_nil_r.
    + cbn. rewrite !stored_values_app. cbn. by rewrite !app_nil_r.
  - exists [CallIsRegisteredUser (phoneNumberId phone)],
           [CallGetContactById (phoneNumberId phone); CallGetProfilePicUrl].
    repeat split; [|discriminate|].
    + cbn. rewrite !upstream_calls_app. cbn. by rewrite !app_nil_r.
    + cbn. rewrite !stored_values_app. cbn. by rewrite !app_nil_r.
  - exists [CallIsRegisteredUser (phoneNumberId phone);
            CallGetContactById (phoneNumberId phone); CallGetProfilePicUrl], [].
    repeat split; [|discriminate|].
    + cbn. rewrite !upstream_calls_app. cbn. by rewrite !app_nil_r, <- !app_assoc.
    + cbn. rewrite !stored_values_app. cbn. by rewrite !app_nil_r.
  - exists [CallIsRegisteredUser (phoneNumberId phone)],
           [CallGetContactById (phoneNumberId phone); CallGetProfilePicUrl].
    repeat split; [|discriminate|].
    + cbn. rewrite !upstream_calls_app. cbn. by rewrite !app_nil_r.
    + cbn. rewrite !stored_values_app. cbn. by rewrite !app_nil_r.
  - exists [CallIsRegisteredUser (phoneNumberId phone);
            CallGetContactById (phoneNumberId phone)], [CallGetProfilePicUrl].
    repeat split; [|discriminate|].
    + cbn. rewrite !upstream_calls_app. cbn. by rewrite !app_nil_r, <- !app_assoc.
    + cbn. rewrite !stored_values_app. cbn. by rewrite !app_nil_r.
  - exists [CallIsRegisteredUser (phoneNumberId phone);
            CallGetContactById (phoneNumberId phone); CallGetProfilePicUrl], [].
    repeat split; [|discriminate|].
    + cbn. rewrite !upstream_calls_app. cbn. by rewrite !app_nil_r, <- !app_assoc.
    + cbn. rewrite !stored_values_app. cbn. by rewrite !app_nil_r.
Qed.

Lemma unregistered_lookup_witness :
  (run 600 nobody_client (getCheck "15551234567") (cold 0)).1
  = live_reply (JObj [("registered", JBool false)])
  /\ keys (served_result 600 nobody_client "15551234567" (cold 0)) = ["registered"]
  /\ upstream_calls (trace (run 600 nobody_client (getCheck "15551234567") (cold 0)).2)
     = upstream_calls (trace (cold 0))
       ++ [CallIsRegisteredUser (phoneNumberId "15551234567")]
  /\ data (run 600 nobody_client (getCheck "15551234567") (cold 0)).2
       !! cacheKey "15551234567"
     = Some (NodeCache.wrap 600
               (clock (cold 0)
                + Z.of_N (latency (isRegisteredUser nobody_client
                                     (phoneNumberId "15551234567"))))
               (JObj [("registered", JBool false)])).
Proof.
  apply (unregistered_lookup 600 nobody_client "15551234567" (cold 0)); reflexivity.
Defined.

Lemma lookup_call_discipline_witness :
  exists calls more,
    upstream_calls (trace (run 600 faceless_client (getCheck "15550000000") (cold 0)).2)
    = upstream_calls (trace (cold 0)) ++ calls
    /\ [CallIsRegisteredUser (phoneNumberId "15550000000");
        CallGetContactById (phoneNumberId "15550000000");
        CallGetProfilePicUrl] = calls ++ more
    /\ (truthy (cached_value "15550000000" (cold 0)) = true -> calls = [])
    /\ stored_values (trace (run 600 faceless_client (getCheck "15550000000") (cold 0)).2)
       = stored_values (trace (cold 0))
         ++ (if (statusCode (run 600 faceless_client (getCheck "15550000000") (cold 0)).1
                 =? 200)
                && negb (truthy (cached_value "15550000000" (cold 0)))
             then [served_result 600 faceless_client "15550000000" (cold 0)] else []).
Proof.
  apply (lookup_call_discipline 600 faceless_client "15550000000" (cold 0)).
  reflexivity.
Defined.

(** X11.  A request that finds an expired entry under its key does not
    serve it: the reply carries [X-Cache-Status: MISS] and the client is
    asked once more.  When the lookup succeeds the entry is replaced by the
    new result, stamped with the time of the [set]; when it fails the
    expired entry is gone and nothing takes its place. *)
Theorem expired_entry_is_refreshed ttl c phone w e :
  fastify.matches_schema phone = true ->
  data w !! cacheKey phone = Some e ->
  NodeCache.expired (clock w) e = true ->
  headers (run ttl c (getCheck phone) w).1 = [("X-Cache-Status", "MISS")]
  /\ upstream_queries (phoneNumberId phone) (trace (run ttl c (getCheck phone) w).2)
     = S (upstream_queries (phoneNumberId phone) (trace w))
  /\ (statusCode (run ttl c (getCheck phone) w).1 = 200 ->
      data (run ttl c (getCheck phone) w).2 !! cacheKey phone
      = Some (NodeCache.wrap ttl (clock (run ttl c (getCheck phone) w).2)
                             (served_result ttl c phone w)))
  /\ (statusCode (run ttl c (getCheck phone) w).1 = 500 ->
      data (run ttl c (getCheck phone) w).2 !! cacheKey phone = None).
Proof.
  intros Hvalid Hlook Hexp.
  assert (NodeCache.get (clock w) (cacheKey phone) (data w)
          = (JUndefined, delete (cacheKey phone) (data w))) as Hget.
  { unfold NodeCache.get. by rewrite Hlook, Hexp. }
  assert (truthy (cached_value phone w) = false) as Hmiss.
  { unfold cached_value. by rewrite Hget. }
  destruct (run_miss_facts ttl c phone w Hvalid Hmiss)
    as (Hheader & Hasked & _ & [[Hok Hdata]|[Hfailed Hdata]]);
    (split; [exact Hheader|]); (split; [exact Hasked|]); rewrite Hdata, Hok || rewrite Hdata, Hfailed.
  - split; [intros _; apply lookup_insert_eq|discriminate].
  - split; [discriminate|]. intros _. rewrite Hget. apply lookup_delete_eq.
Qed.

Lemma expired_entry_is_refreshed_witness :
  headers (run 600 serving_client (getCheck "15559999999") stale_world).1
  = [("X-Cache-Status", "MISS")]
  /\ upstream_queries (phoneNumberId "15559999999")
       (trace (run 600 serving_client (getCheck "15559999999") stale_world).2)
     = S (upstream_queries (phoneNumberId "15559999999") (trace stale_world))
  /\ (statusCode (run 600 serving_client (getCheck "15559999999") stale_world).1 = 200 ->
      data (run 600 serving_client (getCheck "15559999999") stale_world).2
        !! cacheKey "15559999999"
      = Some (NodeCache.wrap 600
                (clock (run 600 serving_client (getCheck "15559999999") stale_world).2)
                (served_result 600 serving_client "15559999999" stale_world)))
  /\ (statusCode (run 600 serving_client (getCheck "15559999999") stale_world).1 = 500 ->
      data (run 600 serving_client (getCheck "15559999999") stale_world).2
        !! cacheKey "15559999999" = None).
Proof.
  apply (expired_entry_is_refreshed 600 serving_client "15559999999" stale_world
           stale_entry).
  - reflexivity.
  - vm_compute. reflexivity.
  - reflexivity.
Defined.

(** X12.  A failed lookup is not remembered.  After a 500 reply the next
    request for the same number, at any later time and whatever the client
    answers then, misses the cache and asks the client again. *)
Theorem failed_lookup_is_retried ttl c1 c2 phone w (dt : N) :
  fastify.matches_schema phone = true ->
  statusCode (run ttl c1 (getCheck phone) w).1 = 500 ->
  headers (run ttl c2 (getCheck phone) (elapse dt (run ttl c1 (getCheck phone) w).2)).1
  = [("X-Cache-Status", "MISS")]
  /\ upstream_queries (phoneNumberId phone)
       (trace (run ttl c2 (getCheck phone) (elapse dt (run ttl c1 (getCheck phone) w).2)).2)
     = S (upstream_queries (phoneNumberId phone) (trace (run ttl c1 (getCheck phone) w).2)).
Proof.
  intros Hvalid Hfailed.
  assert (truthy (cached_value phone w) = false) as Hmiss.
  { destruct (truthy (cached_value phone w)) eqn:Hcached; [|reflexivity].
    rewrite (run_getCheck_hit ttl c1 phone w Hvalid Hcached) in Hfailed. discriminate. }
  destruct (run_miss_facts ttl c1 phone w Hvalid Hmiss)
    as (_ & _ & Hclock & [[Hok _]|[_ Hdata]]); [congruence|].
  assert (truthy (cached_value phone (elapse dt (run ttl c1 (getCheck phone) w).2)) = false)
    as Hagain.
  { unfold cached_value. cbn [elapse at_time data clock]. rewrite Hdata.
    rewrite get_leaves_answers by lia.
    apply (get_miss_later (clock w)); [lia|exact Hmiss]. }
  destruct (run_miss_facts ttl c2 phone _ Hvalid Hagain) as (Hheader & Hasked & _).
  split; [exact Hheader|exact Hasked].
Qed.

Lemma failed_lookup_is_retried_witness :
  headers (run 600 serving_client (getCheck "15550000000")
             (elapse 5 (run 600 faceless_client (getCheck "15550000000") (cold 0)).2)).1
  = [("X-Cache-Status", "MISS")]
  /\ upstream_queries (phoneNumberId "15550000000")
       (trace (run 600 serving_client (getCheck "15550000000")
                 (elapse 5 (run 600 faceless_client (getCheck "15550000000") (cold 0)).2)).2)
     = S (upstream_queries (phoneNumberId "15550000000")
            (trace (run 600 faceless_client (getCheck "15550000000") (cold 0)).2)).
Proof.
  apply (failed_lookup_is_retried 600 faceless_client serving_client "15550000000"
           (cold 0) 5); reflexivity.
Defined.

Lemma failure_leaves_miss ttl c phone w (dt : N) :
  fastify.matches_schema phone = true ->
  statusCode (run ttl c (getCheck phone) w).1 = 500 ->
  truthy (cached_value phone (elapse dt (run ttl c (getCheck phone) w).2)) = false.
Proof.
  intros Hvalid Hfailed.
  assert (truthy (cached_value phone w) = false) as Hmiss.
  { destruct (truthy (cached_value phone w)) eqn:Hcached; [|reflexivity].
    rewrite (run_getCheck_hit ttl c phone w Hvalid Hcached) in Hfailed. discriminate. }
  destruct (run_miss_facts ttl c phone w Hvalid Hmiss)
    as (_ & _ & Hclock & [[Hok _]|[_ Hdata]]); [congruence|].
  unfold cached_value. cbn [elapse at_time data clock]. rewrite Hdata.
  rewrite get_leaves_answers by lia.
  apply (get_miss_later (clock w)); [lia|exact Hmiss].
Qed.

(** X13.  [CACHE_TTL_SECONDS] set to a negative number is taken as it is,
    and every entry is stored with an expiry before the time of its [set].
    The next request for the same number, at any later time, therefore
    misses the cache and asks the client again, with one exception: when
    the expiry comes out as exactly 0, which the cache reads as "never
    expires", the entry is served as a hit from then on. *)
Theorem negative_ttl_disables_cache n c1 c2 phone w (dt : N) :
  n < 0 ->
  fastify.matches_schema phone = true ->
  truthy (cached_value phone w) = false ->
  (clock (run (config.cache_ttl (Some n)) c1 (getCheck phone) w).2 + n * 1000 <> 0 ->
   headers (run (config.cache_ttl (Some n)) c2 (getCheck phone)
              (elapse dt (run (config.cache_ttl (Some n)) c1 (getCheck phone) w).2)).1
   = [("X-Cache-Status", "MISS")]
   /\ upstream_queries (phoneNumberId phone)
        (trace (run (config.cache_ttl (Some n)) c2 (getCheck phone)
                  (elapse dt (run (config.cache_ttl (Some n)) c1 (getCheck phone) w).2)).2)
      = S (upstream_queries (phoneNumberId phone)
             (trace (run (config.cache_ttl (Some n)) c1 (getCheck phone) w).2)))
  /\ (statusCode (run (config.cache_ttl (Some n)) c1 (getCheck phone) w).1 = 200 ->
      clock (run (config.cache_ttl (Some n)) c1 (getCheck phone) w).2 + n * 1000 = 0 ->
      (run (config.cache_ttl (Some n)) c2 (getCheck phone)
           (elapse dt (run (config.cache_ttl (Some n)) c1 (getCheck phone) w).2)).1
      = hit_reply (served_result (config.cache_ttl (Some n)) c1 phone w)).
Proof.
  intros Hneg Hvalid Hmiss.
  assert (config.cache_ttl (Some n) = n) as Httl.
  { unfold config.cache_ttl. destruct (n =? 0) eqn:Hz; [|reflexivity].
    apply Z.eqb_eq in Hz. lia. }
  rewrite Httl.
  assert ((n =? 0) = false) as Hnz by (apply Z.eqb_neq; lia).
  split.
  - intros Hstamp.
    assert (truthy (cached_value phone (elapse dt (run n c1 (getCheck phone) w).2)) = false)
      as Hagain.
    { destruct (run_miss_facts n c1 phone w Hvalid Hmiss)
        as (_ & _ & Hclock & [[Hok Hdata]|[Hfailed _]]).
      - unfold cached_value, NodeCache.get. cbn [elapse at_time data clock].
        rewrite Hdata, lookup_insert_eq.
        assert (NodeCache.expired (clock (run n c1 (getCheck phone) w).2 + Z.of_N dt)
                  (NodeCache.wrap n (clock (run n c1 (getCheck phone) w).2)
                                  (served_result n c1 phone w)) = true) as ->; [|reflexivity].
        unfold NodeCache.expired, NodeCache.wrap. cbn [NodeCache.t]. rewrite Hnz.
        apply andb_true_iff. split; [apply negb_true_iff, Z.eqb_neq|apply Z.ltb_lt]; lia.
      - by apply failure_leaves_miss. }
    destruct (run_miss_facts n c2 phone _ Hvalid Hagain) as (Hheader & Hasked & _).
    split; [exact Hheader|exact Hasked].
  - intros Hok Hzero.
    destruct (live_success_entry n c1 phone w Hvalid Hmiss Hok) as [Hentry Hshape].
    set (first := run n c1 (getCheck phone) w) in *.
    set (e := NodeCache.wrap n (clock first.2) (served_result n c1 phone w)) in *.
    assert (NodeCache.unwrap e = served_result n c1 phone w) as Hvalue.
    { subst e. unfold NodeCache.unwrap, NodeCache.wrap. cbn [NodeCache.v].
      destruct (served_result n c1 phone w); try discriminate Hshape. reflexivity. }
    assert (truthy (NodeCache.unwrap e) = true) as Htruthy.
    { rewrite Hvalue. destruct (served_result n c1 phone w); try discriminate Hshape.
      reflexivity. }
    assert (NodeCache.expired (clock (elapse dt first.2)) e = false) as Hfresh.
    { subst e. unfold NodeCache.expired, NodeCache.wrap. cbn [NodeCache.t].
      rewrite Hnz, Hzero. reflexivity. }
    rewrite (run_getCheck_fresh_entry n c2 phone (elapse dt first.2) e Hvalid Hentry
               Hfresh Htruthy).
    cbn [fst]. by rewrite Hvalue.
Qed.

Lemma negative_ttl_disables_cache_witness :
  (headers (run (config.cache_ttl (Some (-5))) serving_client (getCheck "15559999999")
              (elapse 0 (run (config.cache_ttl (Some (-5))) serving_client
                             (getCheck "15559999999") (cold 10000)).2)).1
   = [("X-Cache-Status", "MISS")]
   /\ upstream_queries (phoneNumberId "15559999999")
        (trace (run (config.cache_ttl (Some (-5))) serving_client (getCheck "15559999999")
                  (elapse 0 (run (config.cache_ttl (Some (-5))) serving_client
                                 (getCheck "15559999999") (cold 10000)).2)).2)
      = S (upstream_queries (phoneNumberId "15559999999")
             (trace (run (config.cache_ttl (Some (-5))) serving_client
                         (getCheck "15559999999") (cold 10000)).2)))
  /\ (run (config.cache_ttl (Some (-5))) nobody_client (getCheck "15559999999")
          (elapse 86400000 (run (config.cache_ttl (Some (-5))) serving_client
                                (getCheck "15559999999") (cold 4932)).2)).1
     = hit_reply (served_result (config.cache_ttl (Some (-5))) serving_client
                                "15559999999" (cold 4932)).
Proof.
  split.
  - apply (proj1 (negative_ttl_disables_cache (-5) serving_client serving_client
                    "15559999999" (cold 10000) 0 eq_refl eq_refl eq_refl)).
    vm_compute. discriminate.
  - apply (proj2 (negative_ttl_disables_cache (-5) serving_client nobody_client
                    "15559999999" (cold 4932) 86400000 eq_refl eq_refl eq_refl));
      reflexivity.
Defined.

(** X14.  With a positive configured TTL the result of a live lookup is
    served up to and including the millisecond [ttl] seconds after the
    [set], and not one millisecond longer: a request at time [now] is
    answered with [X-Cache-Status: HIT] exactly when
    [now <= set time + ttl * 1000]. *)
Theorem stored_entry_served_until_expiry parsed c1 c2 phone w now :
  fastify.matches_schema phone = true ->
  truthy (cached_value phone w) = false ->
  statusCode (run (config.cache_ttl parsed) c1 (getCheck phone) w).1 = 200 ->
  0 < config.cache_ttl parsed ->
  0 <= clock w ->
  headers (run (config.cache_ttl parsed) c2 (getCheck phone)
             (at_time now (run (config.cache_ttl parsed) c1 (getCheck phone) w).2)).1
  = [("X-Cache-Status", "HIT")]
  <-> now <= clock (run (config.cache_ttl parsed) c1 (getCheck phone) w).2
             + config.cache_ttl parsed * 1000.
Proof.
  intros Hvalid Hmiss Hok Hpos Hepoch.
  set (ttl := config.cache_ttl parsed) in *.
  destruct (live_success_entry ttl c1 phone w Hvalid Hmiss Hok) as [Hentry Hshape].
  destruct (run_miss_facts ttl c1 phone w Hvalid Hmiss) as (_ & _ & Hclock & _).
  set (first := run ttl c1 (getCheck phone) w) in *.
  set (e := NodeCache.wrap ttl (clock first.2) (served_result ttl c1 phone w)) in *.
  assert (NodeCache.t e = clock first.2 + ttl * 1000) as Ht.
  { subst e. unfold NodeCache.wrap. cbn [NodeCache.t].
    destruct (ttl =? 0) eqn:Hz; [apply Z.eqb_eq in Hz; lia|reflexivity]. }
  assert (truthy (NodeCache.unwrap e) = true) as Htruthy.
  { subst e. unfold NodeCache.unwrap, NodeCache.wrap. cbn [NodeCache.v].
    destruct (served_result ttl c1 phone w); try discriminate Hshape. reflexivity. }
  destruct (Z.le_gt_cases now (clock first.2 + ttl * 1000)) as [Hin|Hout].
  - split; [done|]. intros _.
    assert (NodeCache.expired now e = false) as Hfresh.
    { unfold NodeCache.expired. rewrite Ht. apply andb_false_iff. right.
      apply Z.ltb_ge. lia. }
    rewrite (run_getCheck_fresh_entry ttl c2 phone (at_time now first.2) e Hvalid Hentry
               Hfresh Htruthy).
    reflexivity.
  - split; [|lia]. intros Hhit. exfalso.
    assert (truthy (cached_value phone (at_time now first.2)) = false) as Hgone.
    { unfold cached_value, NodeCache.get. cbn [at_time data clock]. rewrite Hentry.
      assert (NodeCache.expired now e = true) as ->; [|reflexivity].
      unfold NodeCache.expired. rewrite Ht. apply andb_true_iff.
      split; [apply negb_true_iff, Z.eqb_neq|apply Z.ltb_lt]; lia. }
    destruct (run_miss_facts ttl c2 phone _ Hvalid Hgone) as (Hheader & _).
    rewrite Hheader in Hhit. discriminate.
Qed.

Lemma stored_entry_served_until_expiry_witness :
  headers (run (config.cache_ttl None) nobody_client (getCheck "15559999999")
             (at_time 600068
                (run (config.cache_ttl None) serving_client (getCheck "15559999999")
                     (cold 0)).2)).1
  = [("X-Cache-Status", "HIT")]
  <-> 600068 <= clock (run (config.cache_ttl None) serving_client (getCheck "15559999999")
                           (cold 0)).2
                + config.cache_ttl None * 1000.
Proof.
  apply (stored_entry_served_until_expiry None serving_client nobody_client "15559999999"
           (cold 0) 600068).
  - reflexivity.
  - reflexivity.
  - reflexivity.
  - reflexivity.
  - vm_compute. discriminate.
Defined.

(** X15.  The periodic expiry check of the cache cannot be seen in any
    reply: dropping the entries that are expired by some time up to now
    leaves the reply to every request as it was. *)
Theorem expiry_sweep_is_unobservable ttl c phone w now :
  now <= clock w ->
  (run ttl c (getCheck phone) (with_data (NodeCache.checkData now (data w)) w)).1
  = (run ttl c (getCheck phone) w).1.
Proof.
  intros Hle. apply reply_determined.
  unfold cached_value, NodeCache.get, NodeCache.checkData. cbn [with_data data clock].
  destruct (data w !! cacheKey phone) as [e|] eqn:Hlook.
  - destruct (NodeCache.expired now e) eqn:Hexp.
    + assert (filter (fun kv : string * NodeCache.Entry => NodeCache.expired now kv.2 = false)
                     (data w) !! cacheKey phone = None) as ->.
      { apply map_lookup_filter_None. right. intros e' He'. cbn.
        rewrite Hlook in He'. injection He' as <-. by rewrite Hexp. }
      by rewrite (expired_mono now (clock w) e Hle Hexp).
    + assert (filter (fun kv : string * NodeCache.Entry => NodeCache.expired now kv.2 = false)
                     (data w) !! cacheKey phone = Some e) as ->.
      { apply map_lookup_filter_Some. by split. }
      destruct (NodeCache.expired (clock w) e); reflexivity.
  - assert (filter (fun kv : string * NodeCache.Entry => NodeCache.expired now kv.2 = false)
                   (data w) !! cacheKey phone = None) as ->; [|reflexivity].
    apply map_lookup_filter_None. by left.
Qed.

Lemma expiry_sweep_is_unobservable_witness :
  (run 600 serving_client (getCheck "15559999999")
       (with_data (NodeCache.checkData 600500 (data stale_world)) stale_world)).1
  = (run 600 serving_client (getCheck "15559999999") stale_world).1.
Proof.
  apply (expiry_sweep_is_unobservable 600 serving_client "15559999999" stale_world 600500).
  vm_compute. discriminate.
Defined.

(** X16.  The record of a registered number never holds [undefined], so no
    property is lost when the reply is turned into JSON.  [name], [number]
    and [profile_picture_url] are each [null] or a truthy value: an empty
    string counts as absent and becomes [null] too.  [is_business] is
    [false] or a truthy value. *)
Theorem registered_result_is_normalised ttl c phone w contact pfpUrl :
  fastify.matches_schema phone = true ->
  truthy (cached_value phone w) = false ->
  outcome (isRegisteredUser c (phoneNumberId phone)) = Resolved true ->
  outcome (getContactById c (phoneNumberId phone)) = Resolved contact ->
  outcome (getProfilePicUrl contact) = Resolved pfpUrl ->
  (forall k, In k (keys (served_result ttl c phone w)) ->
             prop k (served_result ttl c phone w) <> JUndefined)
  /\ (prop "name" (served_result ttl c phone w) = JNull
      \/ truthy (prop "name" (served_result ttl c phone w)) = true)
  /\ (prop "number" (served_result ttl c phone w) = JNull
      \/ truthy (prop "number" (served_result ttl c phone w)) = true)
  /\ (prop "profile_picture_url" (served_result ttl c phone w) = JNull
      \/ truthy (prop "profile_picture_url" (served_result ttl c phone w)) = true)
  /\ (prop "is_business" (served_result ttl c phone w) = JBool false
      \/ truthy (prop "is_business" (served_result ttl c phone w)) = true)
  /\ (pushname contact = JStr "" -> prop "name" (served_result ttl c phone w) = JNull).
Proof.
  intros Hvalid Hmiss Hreg Hcontact Hpfp.
  assert (served_result ttl c phone w = profile_result contact pfpUrl) as ->.
  { unfold served_result.
    destruct (run_getCheck_served ttl c phone w Hvalid)
      as [Hhit|_ Hreg'|contact' pfpUrl' _ _ Hcontact' Hpfp'|error _ Hreg'
          |error _ _ Hcontact'|contact' error _ _ Hcontact' Hpfp'];
      try congruence.
    assert (contact' = contact) as -> by congruence.
    assert (pfpUrl' = pfpUrl) as -> by congruence.
    reflexivity. }
  unfold profile_result, js_or. cbn [keys map fst prop].
  destruct (truthy (pushname contact)) eqn:Hname,
           (truthy (number contact)) eqn:Hnumber,
           (truthy pfpUrl) eqn:Hpicture,
           (truthy (isBusiness contact)) eqn:Hbusiness;
    (split;
     [intros k [<-|[<-|[<-|[<-|[<-|[]]]]]]; cbn; intros Hundef;
      rewrite ?Hundef in *; discriminate
     |cbn; repeat split; auto; intros Hempty; rewrite Hempty in Hname; discriminate]).
Qed.

Lemma registered_result_is_normalised_witness :
  prop "name" (served_result 600 nameless_client "15550000001" (cold 0)) = JNull
  \/ truthy (prop "name" (served_result 600 nameless_client "15550000001" (cold 0))) = true.
Proof.
  exact (proj1 (proj2 (registered_result_is_normalised 600 nameless_client "15550000001"
                         (cold 0) nameless JUndefined
                         eq_refl eq_refl eq_refl eq_refl eq_refl))).
Defined.

(** ** The keys of the cache *)

Lemma forallb_true_Forall {A : Type} (f : A -> bool) (l : list A) :
  forallb f l = true -> Forall (fun x => f x = true) l.
Proof.
  induction l as [|x l IH]; cbn [forallb]; [constructor|].
  intros Hall. apply andb_true_iff in Hall as [Hx Hl]. constructor; [exact Hx|by apply IH].
Qed.

Lemma writes_lookup_keys_bind {A B : Type} (p : Prog A) (f : A -> Prog B) :
  writes_lookup_keys p -> (forall a, writes_lookup_keys (f a)) ->
  writes_lookup_keys (bind p f).
Proof.
  intros Hp Hf.
  induction p as [a|key k IH|key value k IH|error msg k IH|id k IH|id k IH|ct k IH];
    cbn [bind writes_lookup_keys] in *; try (intros x; apply IH, Hp); auto.
  destruct Hp as [Hkey Hk]. split; [exact Hkey|by apply IH].
Qed.

Lemma getCheck_writes_lookup_keys phone : writes_lookup_keys (getCheck phone).
Proof.
  unfold getCheck. destruct (fastify.matches_schema phone) eqn:Hvalid; [|exact I].
  assert (is_lookup_key (cacheKey phone)) as Hkey by (by exists phone).
  open_handler. cbn [writes_lookup_keys]. intros cached.
  destruct (truthy cached); [exact I|].
  cbn [writes_lookup_keys].
  intros [[|]|e1]; cbn [bind mbind mret Prog_bind Prog_ret writes_lookup_keys].
  - intros [contact|e2]; cbn [bind mbind mret Prog_bind Prog_ret writes_lookup_keys];
      [|exact I].
    intros [pfpUrl|e3]; cbn [bind mbind mret Prog_bind Prog_ret writes_lookup_keys];
      [|exact I].
    split; [exact Hkey|exact I].
  - split; [exact Hkey|exact I].
  - exact I.
Qed.

Lemma advance_keeps_keys ttl c {A : Type} (p : Prog A) w :
  writes_lookup_keys p ->
  map_Forall (fun key _ => is_lookup_key key) (data w) ->
  map_Forall (fun key _ => is_lookup_key key) (data (advance ttl c p w).2)
  /\ match (advance ttl c p w).1 with
     | Parked _ p' => writes_lookup_keys p'
     | Finished _ => True
     end.
Proof.
  revert w. induction p as [a|key k IH|key value k IH|error msg k IH|id k IH|id k IH|ct k IH];
    intros w Hp Hdata; cbn [advance writes_lookup_keys] in *.
  - by split.
  - unfold cache_get.
    pose proof (get_subseteq (clock w) key (data w)) as Hsub.
    destruct (NodeCache.get (clock w) key (data w)) as [value d]. cbn [snd] in Hsub.
    apply IH; [apply Hp|]. cbn.
    intros k' e' Hlook. apply (Hdata k' e'). by eapply lookup_weaken.
  - destruct Hp as [Hkey Hk]. apply IH; [exact Hk|].
    cbn. unfold NodeCache.set. by apply map_Forall_insert_2.
  - apply IH; [exact Hp|exact Hdata].
  - split; [exact Hdata|apply Hp].
  - split; [exact Hdata|apply Hp].
  - split; [exact Hdata|apply Hp].
Qed.

Lemma resume_keyed ttl c id p w tasks sent next :
  writes_lookup_keys p ->
  map_Forall (fun key _ => is_lookup_key key) (data w) ->
  Forall (fun tk => writes_lookup_keys (rest tk)) tasks ->
  keyed (resume ttl c id p w tasks sent next).
Proof.
  intros Hp Hdata Htasks.
  destruct (advance_keeps_keys ttl c p w Hp Hdata) as (Hd & Hrest).
  unfold resume. destruct (advance ttl c p w) as [[r|d p'] w']; cbn [fst snd] in *.
  - by split.
  - split; [done|]. cbn. apply Forall_app. split; [done|]. by repeat constructor.
Qed.

Lemma step_keyed ttl c s i : keyed s -> keyed (step ttl c s i).
Proof.
  intros (Hdata & Htasks). destruct i as [time phone|id|time]; cbn [step].
  - apply resume_keyed; [apply getCheck_writes_lookup_keys|done|done].
  - destruct (take_task id (parked s)) as [[tk others]|] eqn:Htake; [|by split].
    destruct (take_task_Forall _ _ _ _ _ Htake Htasks) as [Htk Hothers].
    by apply resume_keyed.
  - split; [|done]. cbn.
    intros k' e' Hlook. apply (Hdata k' e').
    eapply lookup_weaken; [exact Hlook|apply map_filter_subseteq].
Qed.

Lemma exec_keyed ttl c s inputs : keyed s -> keyed (exec ttl c s inputs).
Proof.
  unfold exec. revert s. induction inputs as [|i inputs IH]; intros s Hs; [exact Hs|].
  cbn [fold_left]. apply IH. by apply step_keyed.
Qed.

(** X17.  Whatever requests arrive and in whatever order their promises
    settle, every key in the cache is the prefix [whatsapp_user_] followed
    by an identifier that passed the schema: a request with a malformed
    identifier never leaves an entry. *)
Theorem cache_keys_are_valid_identifiers ttl c now inputs key :
  is_Some (data (world (exec ttl c (boot now) inputs)) !! key) ->
  exists phone, key = "whatsapp_user_" +:+ phone
                /\ phone <> ""
                /\ Forall (fun ch => fastify.is_digit ch = true) (list_ascii_of_string phone).
Proof.
  intros [e Hlook].
  assert (keyed (boot now)) as Hboot.
  { split; cbn; [apply map_Forall_empty|constructor]. }
  destruct (exec_keyed ttl c (boot now) inputs Hboot) as [Hdata _].
  destruct (Hdata key e Hlook) as (phone & -> & Hvalid).
  exists phone. split; [reflexivity|].
  destruct phone as [|ch rest']; [discriminate|]. split; [discriminate|].
  unfold fastify.matches_schema in Hvalid.
  by apply forallb_true_Forall.
Qed.

Lemma cache_keys_are_valid_identifiers_witness :
  exists phone, cacheKey "15559999999" = "whatsapp_user_" +:+ phone
                /\ phone <> ""
                /\ Forall (fun ch => fastify.is_digit ch = true) (list_ascii_of_string phone).
Proof.
  apply (cache_keys_are_valid_identifiers 600 serving_client 0
           [Arrive 1 "15559999999"; Settle 0; Settle 0; Settle 0] (cacheKey "15559999999")).
  exists alice_entry. vm_compute. reflexivity.
Defined.

(** ** Reading does not renew *)

(** X18.  A hit neither renews nor changes the entry it serves: the cache
    and the clock are as before, the only thing that happened is the read.
    So an entry expires at the time fixed when it was stored, however often
    it was served: a request after that time misses and asks the client,
    even right after a hit. *)
Theorem hit_does_not_renew ttl c1 c2 phone w e (dt : N) :
  fastify.matches_schema phone = true ->
  data w !! cacheKey phone = Some e ->
  NodeCache.expired (clock w) e = false ->
  truthy (NodeCache.unwrap e) = true ->
  NodeCache.expired (clock w + Z.of_N dt) e = true ->
  (run ttl c1 (getCheck phone) w).1 = hit_reply (NodeCache.unwrap e)
  /\ data (run ttl c1 (getCheck phone) w).2 = data w
  /\ clock (run ttl c1 (getCheck phone) w).2 = clock w
  /\ trace (run ttl c1 (getCheck phone) w).2 = trace w ++ [ECacheGet (cacheKey phone)]
  /\ headers (run ttl c2 (getCheck phone) (elapse dt (run ttl c1 (getCheck phone) w).2)).1
     = [("X-Cache-Status", "MISS")]
  /\ upstream_queries (phoneNumberId phone)
       (trace (run ttl c2 (getCheck phone) (elapse dt (run ttl c1 (getCheck phone) w).2)).2)
     = S (upstream_queries (phoneNumberId phone) (trace w)).
Proof.
  intros Hvalid Hlook Hfresh Htruthy Hlate.
  rewrite (run_getCheck_fresh_entry ttl c1 phone w e Hvalid Hlook Hfresh Htruthy).
  cbn [fst snd]. repeat split.
  - assert (truthy (cached_value phone
                      (elapse dt (note (ECacheGet (cacheKey phone)) w))) = false) as Hgone.
    { unfold cached_value, NodeCache.get. cbn [elapse at_time note data clock].
      by rewrite Hlook, Hlate. }
    by destruct (run_miss_facts ttl c2 phone _ Hvalid Hgone) as (Hheader & _).
  - assert (truthy (cached_value phone
                      (elapse dt (note (ECacheGet (cacheKey phone)) w))) = false) as Hgone.
    { unfold cached_value, NodeCache.get. cbn [elapse at_time note data clock].
      by rewrite Hlook, Hlate. }
    destruct (run_miss_facts ttl c2 phone _ Hvalid Hgone) as (_ & Hasked & _).
    rewrite Hasked. cbn [elapse at_time note trace].
    rewrite upstream_queries_app. cbn. lia.
Qed.

Lemma hit_does_not_renew_witness :
  (run 600 serving_client (getCheck "15559999999") warm_world).1
  = hit_reply (NodeCache.unwrap alice_entry)
  /\ data (run 600 serving_client (getCheck "15559999999") warm_world).2 = data warm_world
  /\ clock (run 600 serving_client (getCheck "15559999999") warm_world).2 = clock warm_world
  /\ trace (run 600 serving_client (getCheck "15559999999") warm_world).2
     = trace warm_world ++ [ECacheGet (cacheKey "15559999999")]
  /\ headers (run 600 nobody_client (getCheck "15559999999")
                (elapse 2000 (run 600 serving_client (getCheck "15559999999")
                                  warm_world).2)).1
     = [("X-Cache-Status", "MISS")]
  /\ upstream_queries (phoneNumberId "15559999999")
       (trace (run 600 nobody_client (getCheck "15559999999")
                 (elapse 2000 (run 600 serving_client (getCheck "15559999999")
                                   warm_world).2)).2)
     = S (upstream_queries (phoneNumberId "15559999999") (trace warm_world)).
Proof.
  apply (hit_does_not_renew 600 serving_client nobody_client "15559999999" warm_world
           alice_entry 2000).
  - reflexivity.
  - vm_compute. reflexivity.
  - reflexivity.
  - reflexivity.
  - reflexivity.
Defined.

(** ** Every request is answered *)

(** X19.  The handler passes at most three [await]s and replies on every
    path.  With nothing else in flight, a request is answered once (at
    most) three promises have settled: no request stays parked, the one
    reply it gets is the reply of the handler run alone, and the next
    request gets the next id. *)
Theorem request_answered_after_three_awaits ttl c s time phone :
  parked s = [] ->
  parked (exec ttl c s (Arrive time phone :: repeat (Settle (next_rid s)) 3)) = []
  /\ replies (exec ttl c s (Arrive time phone :: repeat (Settle (next_rid s)) 3))
     = replies s ++ [(next_rid s, (run ttl c (getCheck phone) (later time (world s))).1)]
  /\ world (exec ttl c s (Arrive time phone :: repeat (Settle (next_rid s)) 3))
     = (run ttl c (getCheck phone) (later time (world s))).2
  /\ next_rid (exec ttl c s (Arrive time phone :: repeat (Settle (next_rid s)) 3))
     = S (next_rid s).
Proof.
  intros Hnone. rewrite (lone_request ttl c s time phone Hnone). repeat split.
Qed.

Lemma request_answered_after_three_awaits_witness :
  parked (exec 600 serving_client (boot 0)
            (Arrive 1 "15559999999" :: repeat (Settle (next_rid (boot 0))) 3)) = []
  /\ replies (exec 600 serving_client (boot 0)
                (Arrive 1 "15559999999" :: repeat (Settle (next_rid (boot 0))) 3))
     = replies (boot 0)
       ++ [(next_rid (boot 0),
            (run 600 serving_client (getCheck "15559999999")
                 (later 1 (world (boot 0)))).1)]
  /\ world (exec 600 serving_client (boot 0)
              (Arrive 1 "15559999999" :: repeat (Settle (next_rid (boot 0))) 3))
     = (run 600 serving_client (getCheck "15559999999") (later 1 (world (boot 0)))).2
  /\ next_rid (exec 600 serving_client (boot 0)
                 (Arrive 1 "15559999999" :: repeat (Settle (next_rid (boot 0))) 3))
     = S (next_rid (boot 0)).
Proof.
  apply (request_answered_after_three_awaits 600 serving_client (boot 0) 1 "15559999999").
  reflexivity.
Defined.
